(** * neovim/python-client: the [Nvim] session facade (neovim/api/nvim.py)

    A shallow embedding of [neovim/api/nvim.py].  Python values are a
    first-order datatype, Python calls are computations in a state and
    exception monad over a [world] that holds the object allocator and the
    session with its transport, and the methods of [Nvim] are functions in
    that monad, written in the order of the source. *)

From Stdlib Require Import ZArith String List Bool Lia.
From stdpp Require Import gmap strings list fin_maps.
Import ListNotations.

Local Open Scope string_scope.
Local Open Scope list_scope.
Local Open Scope Z_scope.

(** ** Python values *)

(** The proxy classes [from_session] knows (neovim/api/buffer.py, window.py
    and tabpage.py); all of them derive from [Remote]. *)
Inductive RemoteClass := Buffer | Window | Tabpage.

(** A [Remote] instance.  [oid] is the identity of the Python object (what
    [id(obj)] and [is] observe), [rcls] its class, [rsession] the identity of
    the [Nvim] instance it was bound to, and [code_data] the pair
    [(type tag, payload)] given to its constructor. *)
Record Remote := mkRemote {
  oid : nat;
  rcls : RemoteClass;
  rsession : nat;
  code_data : Z * string
}.

(** The values that travel through [Nvim]: what msgpack produces (None,
    booleans, integers, raw byte strings, text, arrays, maps and [ExtType]),
    tuples (the [*args] of a call) and [Remote] instances.  Byte strings and
    text are both kept as the string of their bytes; floats are left out, no
    method of the file looks at one. *)
#[warnings="-register-all"]
Inductive value :=
| VNone
| VBool (b : bool)
| VInt (z : Z)
| VBytes (s : string)
| VStr (s : string)
| VList (l : list value)
| VTuple (l : list value)
| VDict (d : list (value * value))
| VExt (code : Z) (data : string)
| VRemote (r : Remote).

(** Induction over [value] that reaches below lists and dicts. *)
Section value_ind_deep.
Variable P : value -> Prop.
Hypothesis HNone : P VNone.
Hypothesis HBool : forall b, P (VBool b).
Hypothesis HInt : forall z, P (VInt z).
Hypothesis HBytes : forall s, P (VBytes s).
Hypothesis HStr : forall s, P (VStr s).
Hypothesis HList : forall l, Forall P l -> P (VList l).
Hypothesis HTuple : forall l, Forall P l -> P (VTuple l).
Hypothesis HDict :
  forall d, Forall (fun kv => P (fst kv) /\ P (snd kv)) d -> P (VDict d).
Hypothesis HExt : forall c s, P (VExt c s).
Hypothesis HRemote : forall r, P (VRemote r).

Fixpoint value_ind_deep (v : value) : P v :=
  match v with
  | VNone => HNone
  | VBool b => HBool b
  | VInt z => HInt z
  | VBytes s => HBytes s
  | VStr s => HStr s
  | VList l =>
      HList l ((fix go (l : list value) : Forall P l :=
                  match l with
                  | [] => List.Forall_nil P
                  | x :: l' => @List.Forall_cons _ P x l' (value_ind_deep x) (go l')
                  end) l)
  | VTuple l =>
      HTuple l ((fix go (l : list value) : Forall P l :=
                   match l with
                   | [] => List.Forall_nil P
                   | x :: l' => @List.Forall_cons _ P x l' (value_ind_deep x) (go l')
                   end) l)
  | VDict d =>
      HDict d ((fix go (d : list (value * value))
                  : Forall (fun kv => P (fst kv) /\ P (snd kv)) d :=
                  match d with
                  | [] => List.Forall_nil _
                  | kv :: d' =>
                      @List.Forall_cons _ _ kv d'
                        (conj (value_ind_deep (fst kv)) (value_ind_deep (snd kv)))
                        (go d')
                  end) d)
  | VExt c s => HExt c s
  | VRemote r => HRemote r
  end.
End value_ind_deep.

(** ** Exceptions *)

(** The exception classes the file meets, with Python's hierarchy:
    [KeyboardInterrupt] and [SystemExit] derive from [BaseException] only,
    every other built-in one from [Exception]; [NvimError] is declared in the
    file as [class NvimError(Exception)]; [UserException] is a class declared
    elsewhere (by a callback) on top of [base]. *)
Inductive exc_class :=
| BaseException
| Exception
| KeyboardInterrupt
| SystemExit
| IOError
| LookupError
| KeyError
| IndexError
| TypeError
| ValueError
| NvimError
| UserException (name : string) (base : exc_class).

#[global] Instance exc_class_eq_dec : EqDecision exc_class.
Proof. solve_decision. Defined.

(** The class itself followed by its ancestors. *)
Fixpoint mro (c : exc_class) : list exc_class :=
  c :: match c with
       | BaseException => []
       | Exception | KeyboardInterrupt | SystemExit => [BaseException]
       | IOError | LookupError | TypeError | ValueError | NvimError =>
           [Exception; BaseException]
       | KeyError | IndexError => [LookupError; Exception; BaseException]
       | UserException _ b => mro b
       end.

Definition issubclass (c d : exc_class) : bool := bool_decide (d ∈ mro c).

(** An exception instance: its class and the arguments it was built with. *)
Record exn := mkExn { exn_class : exc_class; exn_args : list value }.

(** What an [except d:] clause matches. *)
Definition isinstance_exn (e : exn) (d : exc_class) : bool :=
  issubclass (exn_class e) d.

(** ** Results, the world and the monad *)

(** A Python call that comes back: with a value or with an exception. *)
Inductive result (A : Type) :=
| Ok (a : A)
| Exc (e : exn).
Arguments Ok {A} a.
Arguments Exc {A} e.

(** A call that goes through the transport may also never come back
    ([Hang]): a blocking request the host leaves unanswered. *)
Inductive outcome (A : Type) :=
| Return (a : A)
| Raise (e : exn)
| Hang.
Arguments Return {A} a.
Arguments Raise {A} e.
Arguments Hang {A}.

(** Messages handed to the transport. *)
Inductive out_msg :=
| Request (name : value) (args : list value)
| Notification (name : value) (args : list value)
| Response (v : value)
| ErrorResponse (e : exn).

(** Messages the transport delivers. *)
Inductive in_msg :=
| InRequest (name : value) (args : list value)
| InNotification (name : value) (args : list value).

(** How the host settles a correlated request: a result, an error payload,
    the connection closing first, or nothing at all. *)
Inductive reply :=
| Result (v : value)
| HostError (e : value)
| Closed
| Silent.

(** The state a call runs in: the allocator of object identities, and the
    session (the file has one [session] object, shared by every [Nvim] made
    from it): what was sent so far, oldest first; the host, which settles a
    request from everything it has received, the request included; the
    [error_wrapper] attribute. *)
Record world := mkWorld {
  next_oid : nat;
  outbox : list out_msg;
  host : list out_msg -> reply;
  error_wrapper : value -> result exn
}.

Definition M (A : Type) : Type := world -> outcome A * world.

Definition ret {A} (a : A) : M A := fun w => (Return a, w).

Definition raise {A} (e : exn) : M A := fun w => (Raise e, w).

Definition bind {A B} (m : M A) (k : A -> M B) : M B :=
  fun w =>
    match m w with
    | (Return a, w') => k a w'
    | (Raise e, w') => (Raise e, w')
    | (Hang, w') => (Hang, w')
    end.

Declare Scope py_scope.
Delimit Scope py_scope with py.
Notation "'let!' x ':=' m 'in' k" := (bind m (fun x => k))
  (at level 10, x name, m at level 100, k at level 200) : py_scope.
Notation "'let!' ' p ':=' m 'in' k" := (bind m (fun x => match x with p => k end))
  (at level 10, p pattern, m at level 100, k at level 200) : py_scope.
Notation "'exec!' m 'in' k" := (bind m (fun _ => k))
  (at level 10, m at level 100, k at level 200) : py_scope.
Local Open Scope py_scope.

(** A pure step that may raise. *)
Definition lift {A} (r : result A) : M A :=
  match r with
  | Ok a => ret a
  | Exc e => raise e
  end.

(** [try: body / except d: handler]: the handler runs for the instances of
    [d], anything else goes on up. *)
Definition try_except {A} (body : M A) (d : exc_class) (handler : exn -> M A) : M A :=
  fun w =>
    match body w with
    | (Raise e, w') => if isinstance_exn e d then handler e w' else (Raise e, w')
    | r => r
    end.

(** A Python callable handed to the file by its caller: positional and
    keyword arguments in, a value or an exception out; it may change the
    world on the way and it comes back. *)
Definition callable : Type :=
  list value -> gmap string value -> world -> result value * world.

Definition call_py (f : callable) (args : list value) (kwargs : gmap string value) : M value :=
  fun w =>
    match f args kwargs w with
    | (Ok v, w') => (Return v, w')
    | (Exc e, w') => (Raise e, w')
    end.

(** Allocation of a new Python object. *)
Definition fresh_oid : M nat :=
  fun w => (Return (next_oid w),
            mkWorld (S (next_oid w)) (outbox w) (host w) (error_wrapper w)).

Definition send (m : out_msg) : M unit :=
  fun w => (Return tt,
            mkWorld (next_oid w) (outbox w ++ [m]) (host w) (error_wrapper w)).

(** ** The Python operations the file applies to values *)

(** Truth value of an object, as [if obj:] takes it. *)
Definition truthy (v : value) : bool :=
  match v with
  | VNone => false
  | VBool b => b
  | VInt z => negb (z =? 0)
  | VBytes s | VStr s => negb (String.eqb s "")
  | VList l | VTuple l => negb (Nat.eqb (length l) 0%nat)
  | VDict d => negb (Nat.eqb (length d) 0%nat)
  | VExt _ _ => true
  | VRemote _ => true
  end.

(** What may be the key of a dict: lists and dicts are not hashable, a tuple
    is when its items are. *)
Fixpoint hashable (v : value) : bool :=
  match v with
  | VList _ | VDict _ => false
  | VTuple l => forallb hashable l
  | _ => true
  end.

(** Modelled from the spec: the [Remote] class of neovim/api/common.py is not
    part of the sources at hand.  Two proxies are equal iff their
    (type-tag, payload) pairs are equal, regardless of object identity. *)
Definition Remote_eq (a b : Remote) : bool :=
  (fst (code_data a) =? fst (code_data b)) && String.eqb (snd (code_data a)) (snd (code_data b)).

(** [is]: the same object. *)
Definition Remote_is (a b : Remote) : bool := Nat.eqb (oid a) (oid b).

(** [a == b] between two keys of a dict (hashable values): by value, a
    boolean being the integer 0 or 1, proxies by [Remote_eq]. *)
Fixpoint py_eq (a b : value) {struct a} : bool :=
  match a, b with
  | VNone, VNone => true
  | VBool x, VBool y => Bool.eqb x y
  | VBool x, VInt y => Z.b2z x =? y
  | VInt x, VBool y => x =? Z.b2z y
  | VInt x, VInt y => x =? y
  | VBytes x, VBytes y => String.eqb x y
  | VStr x, VStr y => String.eqb x y
  | VTuple x, VTuple y =>
      (fix all2 (x y : list value) : bool :=
         match x, y with
         | [], [] => true
         | a :: x', b :: y' => py_eq a b && all2 x' y'
         | _, _ => false
         end) x y
  | VExt c d, VExt c' d' => (c =? c') && String.eqb d d'
  | VRemote r, VRemote r' => Remote_eq r r'
  | _, _ => false
  end.

(** A Python dict whose keys are values, in insertion order. *)
Definition dict (V : Type) : Type := list (value * V).

Fixpoint dict_get {V} (k : value) (d : dict V) : option V :=
  match d with
  | [] => None
  | (k', v) :: d' => if py_eq k' k then Some v else dict_get k d'
  end.

(** [d[k] = v]: the entry of an equal key is overwritten in place. *)
Fixpoint dict_set {V} (k : value) (v : V) (d : dict V) : dict V :=
  match d with
  | [] => [(k, v)]
  | (k', v') :: d' => if py_eq k' k then (k', v) :: d' else (k', v') :: dict_set k v d'
  end.

(** A dict display [{k1: v1, k2: v2, ...}]; a key that is not hashable is a
    [TypeError]. *)
Fixpoint dict_display {V} (items : list (value * V)) (acc : dict V) : result (dict V) :=
  match items with
  | [] => Ok acc
  | (k, v) :: rest =>
      if hashable k then dict_display rest (dict_set k v acc)
      else Exc (mkExn TypeError [k])
  end.

(** [l[i]] on a sequence of length [length l]: a negative index counts from
    the end. *)
Definition seq_index {A} (l : list A) (i : Z) : option A :=
  let n := Z.of_nat (length l) in
  let j := if i <? 0 then i + n else i in
  if (0 <=? j) && (j <? n) then nth_error l (Z.to_nat j) else None.

Definition chars (s : string) : list string :=
  map (fun c => String c EmptyString) (list_ascii_of_string s).

Definition byte_values (s : string) : list Z :=
  map (fun c => Z.of_N (Ascii.N_of_ascii c)) (list_ascii_of_string s).

Definition as_index (k : value) : option Z :=
  match k with
  | VInt i => Some i
  | VBool b => Some (Z.b2z b)
  | _ => None
  end.

Section Interpreter.

(** [IS_PYTHON3] of neovim/compat.py: which interpreter runs the client. *)
Variable IS_PYTHON3 : bool.

(** [repr(err)] and [traceback.format_exc(5)] of an exception being handled:
    text made by the interpreter. *)
Variable repr_exn : exn -> string.
Variable format_exc : exn -> string.

(** A string literal without prefix: text on Python 3, bytes on Python 2. *)
Definition lit (s : string) : value := if IS_PYTHON3 then VStr s else VBytes s.

(** The items of a byte string: integers on Python 3, one-byte strings on
    Python 2. *)
Definition bytes_items (s : string) : list value :=
  if IS_PYTHON3 then map VInt (byte_values s) else map VBytes (chars s).

(** The items [for x in v] (and [*v], and unpacking) goes through. *)
Definition py_iter (v : value) : result (list value) :=
  match v with
  | VList l | VTuple l => Ok l
  | VDict d => Ok (map fst d)
  | VStr s => Ok (map VStr (chars s))
  | VBytes s => Ok (bytes_items s)
  | VExt c d => Ok [VInt c; VBytes d]
  | _ => Exc (mkExn TypeError [lit "object is not iterable"])
  end.

Definition index_items (items : list value) (k : value) : result value :=
  match as_index k with
  | Some i =>
      match seq_index items i with
      | Some x => Ok x
      | None => Exc (mkExn IndexError [lit "index out of range"])
      end
  | None => Exc (mkExn TypeError [lit "indices must be integers"])
  end.

(** [v[k]] on the values a host sends.  The proxies index by requests of
    their own (neovim/api/buffer.py), which is not this file's concern: no
    host payload holds a proxy. *)
Definition py_getitem (v k : value) : result value :=
  match v with
  | VList l | VTuple l => index_items l k
  | VStr s => index_items (map VStr (chars s)) k
  | VBytes s => index_items (bytes_items s) k
  | VExt c d => index_items [VInt c; VBytes d] k
  | VDict d =>
      if hashable k then
        match dict_get k d with
        | Some x => Ok x
        | None => Exc (mkExn KeyError [k])
        end
      else Exc (mkExn TypeError [lit "unhashable type"])
  | _ => Exc (mkExn TypeError [lit "object is not subscriptable"])
  end.

(** [a, b = v]. *)
Definition unpack2 (v : value) : result (value * value) :=
  match py_iter v with
  | Ok [a; b] => Ok (a, b)
  | Ok _ => Exc (mkExn ValueError [lit "wrong number of values to unpack"])
  | Exc e => Exc e
  end.

(** ** neovim/api/common.py: [walk] and [DecodeHook] *)

(** Modelled from the spec: [walk] of neovim/api/common.py is not part of
    the sources at hand.  A translation is applied recursively over composite
    values (ordered sequences, mappings, nested combinations), never only at
    the top level: an ordered sequence comes back as the list of its walked
    items, a mapping with its keys and its values walked, anything else is
    handed to [fn]. *)
Fixpoint walk (fn : value -> M value) (obj : value) {struct obj} : M value :=
  match obj with
  | VList l | VTuple l =>
      let! l' := (fix each (l : list value) : M (list value) :=
                    match l with
                    | [] => ret []
                    | o :: l0 =>
                        let! o' := walk fn o in
                        let! l0' := each l0 in
                        ret (o' :: l0')
                    end) l in
      ret (VList l')
  | VDict d =>
      let! d' := (fix each (d : list (value * value)) : M (list (value * value)) :=
                    match d with
                    | [] => ret []
                    | (k, v) :: d0 =>
                        let! k' := walk fn k in
                        let! v' := walk fn v in
                        let! d0' := each d0 in
                        ret ((k', v') :: d0')
                    end) d in
      ret (VDict d')
  | _ => fn obj
  end.

(** The text-decoding policy of an [Nvim] instance. *)
Record DecodeHook := mkDecodeHook {
  encoding : string;
  encoding_errors : string
}.

(** Modelled from the spec: [DecodeHook] of neovim/api/common.py is not part
    of the sources at hand.  If a text-decoding policy is configured, raw
    byte buffers are normalized to text, anything else is unchanged. *)
Definition decode_if_bytes (h : DecodeHook) (obj : value) : value :=
  match obj with
  | VBytes s => VStr s
  | _ => obj
  end.

Definition DecodeHook_walk (h : DecodeHook) (obj : value) : M value :=
  walk (fun o => ret (decode_if_bytes h o)) obj.

(** [DecodeHook()]: the default policy. *)
Definition DecodeHook_default : DecodeHook := mkDecodeHook "utf-8" "strict".

(** ** The session *)

Definition set_error_wrapper (f : value -> result exn) : M unit :=
  fun w => (Return tt, mkWorld (next_oid w) (outbox w) (host w) f).

(** The [async] option of a request: present and true. *)
Definition async_option (kwargs : gmap string value) : bool :=
  match kwargs !! "async" with
  | Some v => truthy v
  | None => false
  end.

(** Modelled from the spec: [Session.request] of neovim/msgpack_rpc is not
    part of the sources at hand.  Unless the asynchronous option is set, a
    correlated request is sent and the caller blocks until a response or an
    error arrives: the result is returned, a host-reported error is raised as
    the error [error_wrapper] makes of the host's payload, the transport
    closing first is a connection-closed error ([IOError], as [quit] expects
    it).  When the option is set a fire-and-forget notification is sent
    instead: no response is awaited and no result is returned.  No other
    option is interpreted. *)
Definition session_request (name : value) (args : list value)
    (kwargs : gmap string value) : M value :=
  if async_option kwargs then
    exec! send (Notification name args) in
    ret VNone
  else
    exec! send (Request name args) in
    fun w =>
      match host w (outbox w) with
      | Result v => (Return v, w)
      | HostError e =>
          match error_wrapper w e with
          | Ok err => (Raise err, w)
          | Exc err => (Raise err, w)
          end
      | Closed => (Raise (mkExn IOError [lit "EOF"]), w)
      | Silent => (Hang, w)
      end.

(** Modelled from the spec: [Session.run] of neovim/msgpack_rpc is not part
    of the sources at hand.  [on_setup], when given, is invoked once; then
    each inbound message is served in the order the transport delivers it.
    Request: the handler is invoked and its return value is sent as the
    correlated response; if the handler raises, the raised condition is
    converted to a host-visible error response and the loop continues.
    Notification: the handler is invoked, its return value ignored, and a
    raised condition does not stop the loop.  The transport ending while the
    loop awaits input is surfaced to the caller of [run] as a connection-closed
    error.  [inbound] is what the transport delivers before it ends. *)
Definition serve (on_request on_notification : value -> value -> M value)
    (m : in_msg) : M unit :=
  fun w =>
    match m with
    | InRequest name args =>
        match on_request name (VList args) w with
        | (Return v, w') => send (Response v) w'
        | (Raise e, w') => send (ErrorResponse e) w'
        | (Hang, w') => (Hang, w')
        end
    | InNotification name args =>
        match on_notification name (VList args) w with
        | (Hang, w') => (Hang, w')
        | (_, w') => (Return tt, w')
        end
    end.

Fixpoint dispatch (on_request on_notification : value -> value -> M value)
    (inbound : list in_msg) : M unit :=
  match inbound with
  | [] => raise (mkExn IOError [lit "EOF"])
  | m :: rest =>
      exec! serve on_request on_notification m in
      dispatch on_request on_notification rest
  end.

Definition session_run (on_request on_notification : value -> value -> M value)
    (on_setup : option callable) (inbound : list in_msg) : M unit :=
  exec! match on_setup with
        | Some f => exec! call_py f [] ∅ in ret tt
        | None => ret tt
        end in
  dispatch on_request on_notification inbound.

(** Modelled from the spec: [Session.threadsafe_call] of neovim/msgpack_rpc
    is not part of the sources at hand.  A deferred task is owned by the
    scheduler until it is executed exactly once on the loop thread, then
    discarded; deferred tasks run in the order submitted. *)
Record scheduler := mkScheduler {
  loop_world : world;
  deferred : list (M value)
}.

Definition threadsafe_call (task : M value) (s : scheduler) : scheduler :=
  mkScheduler (loop_world s) (deferred s ++ [task]).

(** The loop thread running the oldest deferred task. *)
Definition run_deferred (s : scheduler) : option (outcome value * scheduler) :=
  match deferred s with
  | [] => None
  | task :: rest =>
      let (r, w') := task (loop_world s) in
      Some (r, mkScheduler w' rest)
  end.

(** ** class Nvim *)

(** An [Nvim] instance: its identity and the attributes [__init__] stores.
    [_session] is the one session of the [world]; the helper objects
    [__init__] builds from classes of other files ([RemoteApi], [RemoteMap],
    [RemoteSequence], [Current], [Funcs]) carry no state of their own. *)
Record Nvim := mkNvim {
  nv_oid : nat;
  channel_id : value;
  metadata : value;
  types : dict RemoteClass;
  _decodehook : option DecodeHook
}.

Definition Nvim_init (channel_id metadata : value) (types : dict RemoteClass)
    (decodehook : option DecodeHook) : M Nvim :=
  let! o := fresh_oid in
  ret (mkNvim o channel_id metadata types decodehook).

(** [cls(session, code_data)] for a proxy class: a new object that keeps its
    two arguments. *)
Definition Remote_init (cls : RemoteClass) (session : Nvim) (code_data : Z * string)
    : M value :=
  let! o := fresh_oid in
  ret (VRemote (mkRemote o cls (nv_oid session) code_data)).

(** [lambda e: NvimError(e[1])]. *)
Definition nvim_error_wrapper (e : value) : result exn :=
  match py_getitem e (VInt 1) with
  | Ok e1 => Ok (mkExn NvimError [e1])
  | Exc err => Exc err
  end.

Definition from_session : M Nvim :=
  exec! set_error_wrapper nvim_error_wrapper in
  let! r := session_request (VBytes "vim_get_api_info") [] ∅ in
  let! '(channel_id, metadata) := lift (unpack2 r) in
  let! metadata :=
    (if IS_PYTHON3 then DecodeHook_walk DecodeHook_default metadata
     else ret metadata) in
  let! tys := lift (py_getitem metadata (lit "types")) in
  let! b := lift (py_getitem tys (lit "Buffer")) in
  let! b_id := lift (py_getitem b (lit "id")) in
  let! tys := lift (py_getitem metadata (lit "types")) in
  let! w := lift (py_getitem tys (lit "Window")) in
  let! w_id := lift (py_getitem w (lit "id")) in
  let! tys := lift (py_getitem metadata (lit "types")) in
  let! t := lift (py_getitem tys (lit "Tabpage")) in
  let! t_id := lift (py_getitem t (lit "id")) in
  let! types :=
    lift (dict_display [(b_id, Buffer); (w_id, Window); (t_id, Tabpage)] []) in
  Nvim_init channel_id metadata types None.

Definition _from_nvim (self : Nvim) (obj : value) : M value :=
  match obj with
  | VExt code data =>
      match dict_get (VInt code) (types self) with
      | Some cls => Remote_init cls self (code, data)
      | None => raise (mkExn KeyError [VInt code])
      end
  | _ =>
      match _decodehook self with
      | Some h => ret (decode_if_bytes h obj)
      | None => ret obj
      end
  end.

(** [ExtType(code, data)] of msgpack: the constructor takes an integer code
    from 0 to 127 (and bytes, which [data] is) and raises [ValueError] for
    any other. *)
Definition ExtType (code : Z) (data : string) : result value :=
  if (0 <=? code) && (code <=? 127) then Ok (VExt code data)
  else Exc (mkExn ValueError [lit "code must be 0~127"]).

Definition _to_nvim (self : Nvim) (obj : value) : result value :=
  match obj with
  | VRemote r => ExtType (fst (code_data r)) (snd (code_data r))
  | _ => Ok obj
  end.

Definition request (self : Nvim) (name : value) (args : list value)
    (kwargs : gmap string value) : M value :=
  let! args := walk (fun o => lift (_to_nvim self o)) (VTuple args) in
  let! args := lift (py_iter args) in
  let! res := session_request name args kwargs in
  walk (_from_nvim self) res.

Definition filter_request_cb (self : Nvim) (request_cb : callable)
    (name args : value) : M value :=
  let! args := walk (_from_nvim self) args in
  let! name := _from_nvim self name in
  let! result := call_py request_cb [name; args] ∅ in
  walk (fun o => lift (_to_nvim self o)) result.

Definition filter_notification_cb (self : Nvim) (notification_cb : callable)
    (name args : value) : M value :=
  let! name := _from_nvim self name in
  let! args := walk (_from_nvim self) args in
  exec! call_py notification_cb [name; args] ∅ in
  ret VNone.

Definition run_loop (self : Nvim) (request_cb notification_cb : callable)
    (setup_cb : option callable) (inbound : list in_msg) : M unit :=
  session_run (filter_request_cb self request_cb)
    (filter_notification_cb self notification_cb) setup_cb inbound.

Definition with_decodehook (self : Nvim) (hook : DecodeHook) : M Nvim :=
  Nvim_init (channel_id self) (metadata self) (types self) (Some hook).

Definition command (self : Nvim) (string async : value) : M value :=
  request self (lit "vim_command") [string] {[ "async" := async ]}.

(** A [for] loop whose body either goes on to the next item or breaks. *)
Inductive flow := Next | Break.

Fixpoint for_each {A} (items : list A) (body : A -> M flow) : M unit :=
  match items with
  | [] => ret tt
  | x :: rest =>
      let! f := body x in
      match f with
      | Next => for_each rest body
      | Break => ret tt
      end
  end.

(** The [TypeError] of [call] for the keyword [k]. *)
Definition unexpected_keyword (k : string) : exn :=
  mkExn TypeError [lit ("call() got an unexpected keyword argument '" +:+ k +:+ "'")].

(** [kwargs] is iterated as the dict it is: in the order of its keys. *)
Definition call (self : Nvim) (name : value) (args : list value)
    (kwargs : gmap string value) : M value :=
  exec! for_each (map fst (map_to_list kwargs)) (fun k =>
          if String.eqb k "async" then ret Next
          else raise (unexpected_keyword k)) in
  request self (lit "vim_call_function") [name; VTuple args] kwargs.

Definition list_runtime_paths (self : Nvim) : M value :=
  request self (lit "vim_list_runtime_paths") [] ∅.

Definition is_None (v : value) : bool :=
  match v with
  | VNone => true
  | _ => false
  end.

Definition foreach_rtp (self : Nvim) (cb : callable) : M value :=
  let! r := request self (lit "vim_list_runtime_paths") [] ∅ in
  let! paths := lift (py_iter r) in
  exec! for_each paths (fun path =>
          try_except
            (let! v := call_py cb [path] ∅ in
             if is_None v then ret Next else ret Break)
            Exception
            (fun _ => ret Break)) in
  ret VNone.

Definition err_write (self : Nvim) (msg async : value) : M value :=
  request self (lit "vim_err_write") [msg] {[ "async" := async ]}.

Definition quit (self : Nvim) (quit_command : value) : M value :=
  try_except
    (exec! command self quit_command (VBool false) in ret VNone)
    IOError
    (fun _ => ret VNone).

(** The line feed of a string literal. *)
Definition nl : string := String (Ascii.ascii_of_nat 10) EmptyString.

(** The text [async_call] reports a failure with. *)
Definition async_error_msg (err : exn) (call_point : string) : string :=
  "error caught while executing async callback:" +:+ nl +:+
  repr_exn err +:+ nl +:+
  format_exc err +:+ nl +:+ " " +:+ nl +:+
  "the call was requested at" +:+ nl +:+
  call_point.

(** The closure [handler] of [async_call]. *)
Definition async_call_handler (self : Nvim) (fn : callable) (args : list value)
    (kwargs : gmap string value) (call_point : string) : M value :=
  try_except
    (exec! call_py fn args kwargs in ret VNone)
    Exception
    (fun err =>
       let msg := lit (async_error_msg err call_point) in
       exec! err_write self msg (VBool true) in
       raise err).

(** [stack] is [format_stack(None, 5)] where [async_call] is called: the
    innermost frames, the call of [format_stack] itself last. *)
Definition async_call (self : Nvim) (fn : callable) (args : list value)
    (kwargs : gmap string value) (stack : list string) (s : scheduler) : scheduler :=
  let call_point := String.concat "" (removelast stack) in
  threadsafe_call (async_call_handler self fn args kwargs call_point) s.

(** ** What a translation applied at every depth amounts to *)

(** [f] applied to every leaf of a composite value, sequences coming back as
    lists: what [walk] computes for a translation that cannot fail. *)
Fixpoint deep_map (f : value -> value) (v : value) {struct v} : value :=
  match v with
  | VList l | VTuple l => VList (map (deep_map f) l)
  | VDict d => VDict (map (fun kv => (deep_map f (fst kv), deep_map f (snd kv))) d)
  | _ => f v
  end.

(** A proxy somewhere in the value, at any depth. *)
Fixpoint has_remote (v : value) {struct v} : bool :=
  match v with
  | VRemote _ => true
  | VList l | VTuple l => existsb has_remote l
  | VDict d => existsb (fun kv => has_remote (fst kv) || has_remote (snd kv)) d
  | _ => false
  end.

(** A wire reference somewhere in the value, at any depth. *)
Fixpoint has_ext (v : value) {struct v} : bool :=
  match v with
  | VExt _ _ => true
  | VList l | VTuple l => existsb has_ext l
  | VDict d => existsb (fun kv => has_ext (fst kv) || has_ext (snd kv)) d
  | _ => false
  end.

(** The wire reference that stands for a proxy: its tag and payload. *)
Definition wire_ref (r : Remote) : value :=
  VExt (fst (code_data r)) (snd (code_data r)).

(** A value with every proxy, at any depth, replaced by its wire reference,
    sequences coming back as lists: what the encoding of a value gives when
    it succeeds. *)
Definition to_wire (v : value) : value :=
  deep_map (fun o => match o with
                     | VRemote r => wire_ref r
                     | _ => o
                     end) v.

(** A dict key the codec leaves as it is: None, a boolean, an integer, a
    byte string or text, and not a tuple (walked, a tuple is a list, which
    no dict takes as a key), a wire reference or a proxy. *)
Definition plain_key (k : value) : bool :=
  match k with
  | VNone | VBool _ | VInt _ | VBytes _ | VStr _ => true
  | _ => false
  end.

(** The values the encoding goes through at every depth: every proxy
    carries a tag [ExtType] takes (0 to 127), and the keys of every dict are
    plain. *)
Fixpoint encodable (v : value) {struct v} : bool :=
  match v with
  | VRemote r => (0 <=? fst (code_data r)) && (fst (code_data r) <=? 127)
  | VList l | VTuple l => forallb encodable l
  | VDict d => forallb (fun kv => plain_key (fst kv) && encodable (snd kv)) d
  | _ => true
  end.

(** [from_wire] of the spec, at every depth: [decoded self v v'] when [v'] is
    [v] with each wire reference of a registered tag replaced by a proxy of
    the registered class bound to [self], each other leaf normalized by the
    decoding policy when there is one, and the shape kept (sequences as
    lists). *)
#[warnings="-register-all"]
Inductive decoded (self : Nvim) : value -> value -> Prop :=
| decoded_ext code data cls r :
    dict_get (VInt code) (types self) = Some cls ->
    rcls r = cls -> rsession r = nv_oid self -> code_data r = (code, data) ->
    decoded self (VExt code data) (VRemote r)
| decoded_list l l' :
    Forall2 (decoded self) l l' -> decoded self (VList l) (VList l')
| decoded_tuple l l' :
    Forall2 (decoded self) l l' -> decoded self (VTuple l) (VList l')
| decoded_dict d d' :
    Forall2 (fun kv kv' => decoded self (fst kv) (fst kv') /\
                           decoded self (snd kv) (snd kv')) d d' ->
    decoded self (VDict d) (VDict d')
| decoded_leaf v :
    (forall c s, v <> VExt c s) -> (forall l, v <> VList l) ->
    (forall l, v <> VTuple l) -> (forall d, v <> VDict d) ->
    decoded self v (match _decodehook self with
                    | Some h => decode_if_bytes h v
                    | None => v
                    end).

(** Every wire reference of the value, at any depth, carries a tag of the
    registry. *)
Fixpoint registered (self : Nvim) (v : value) {struct v} : bool :=
  match v with
  | VExt code _ =>
      match dict_get (VInt code) (types self) with
      | Some _ => true
      | None => false
      end
  | VList l | VTuple l => forallb (registered self) l
  | VDict d => forallb (fun kv => registered self (fst kv) && registered self (snd kv)) d
  | _ => true
  end.

(** The paths a callback is invoked with when it is tried on each path in
    turn until it returns something other than None or raises: the paths up
    to and including the first such one, with the world the invocations
    leave. *)
Fixpoint visited (cb : callable) (paths : list value) (w : world) : list value * world :=
  match paths with
  | [] => ([], w)
  | path :: rest =>
      match cb [path] ∅ w with
      | (Ok VNone, w') => let (seen, w'') := visited cb rest w' in (path :: seen, w'')
      | (_, w') => ([path], w')
      end
  end.

(** Two worlds with the same session: at most objects were allocated in
    between. *)
Definition same_session (w w' : world) : Prop :=
  outbox w' = outbox w /\ host w' = host w /\ error_wrapper w' = error_wrapper w.

(** The decoding policy of an instance applied to a leaf. *)
Definition hooked (self : Nvim) (v : value) : value :=
  match _decodehook self with
  | Some h => decode_if_bytes h v
  | None => v
  end.

(** A method or event name: text or a byte string. *)
Definition is_text (v : value) : bool :=
  match v with
  | VStr _ | VBytes _ => true
  | _ => false
  end.

(** A computation that leaves the [error_wrapper] attribute alone. *)
Definition keeps_wrapper {A} (m : M A) : Prop :=
  forall w, error_wrapper (snd (m w)) = error_wrapper w.

(** ** Sample inputs *)

Definition payload1 : string := String (Ascii.ascii_of_nat 1) EmptyString.

Definition payload2 : string := String (Ascii.ascii_of_nat 2) EmptyString.

(** An instance whose registry is [{0: Buffer, 1: Window, 2: Tabpage}]. *)
Definition nvim_sample : Nvim :=
  mkNvim 0 (VInt 1) VNone [(VInt 0, Buffer); (VInt 1, Window); (VInt 2, Tabpage)] None.

(** A buffer proxy made elsewhere, with tag 0 and payload [payload1]. *)
Definition proxy_sample : Remote := mkRemote 9 Buffer 0 (0, payload1).

(** A session set up by [from_session], nothing sent yet, in front of a
    host that settles every request the way [h] says. *)
Definition world_sample (h : list out_msg -> reply) : world :=
  mkWorld 1 [] h nvim_error_wrapper.

(** A session as it is before [from_session]. *)
Definition world_fresh (h : list out_msg -> reply) : world :=
  mkWorld 0 [] h (fun e => Ok (mkExn Exception [e])).

Definition host_silent : list out_msg -> reply := fun _ => Silent.

Definition host_closed : list out_msg -> reply := fun _ => Closed.

Definition host_failing : list out_msg -> reply :=
  fun _ => HostError (VList [VInt 0; VBytes "boom"]).

Definition host_paths : list out_msg -> reply :=
  fun _ => Result (VList [VBytes "/a"; VBytes "/b"; VBytes "/c"]).

Definition host_refs : list out_msg -> reply :=
  fun _ => Result (VList [VExt 0 payload1; VDict [(VBytes "w", VList [VExt 1 payload2])]]).

Definition metadata_sample : value :=
  VDict [(VBytes "types",
          VDict [(VBytes "Buffer", VDict [(VBytes "id", VInt 0)]);
                 (VBytes "Window", VDict [(VBytes "id", VInt 1)]);
                 (VBytes "Tabpage", VDict [(VBytes "id", VInt 2)])])].

Definition host_api_info : list out_msg -> reply :=
  fun _ => Result (VList [VInt 3; metadata_sample]).

(** A callback that notes the path it is given in the outbox, raises
    [ValueError] on "/b" and returns None on any other path. *)
Definition cb_sample : callable :=
  fun args _ w =>
    let w' := mkWorld (next_oid w) (outbox w ++ [Notification (VBytes "seen") args])
                (host w) (error_wrapper w) in
    match args with
    | [VBytes s] =>
        if String.eqb s "/b" then (Exc (mkExn ValueError [VBytes s]), w')
        else (Ok VNone, w')
    | _ => (Ok VNone, w')
    end.

(** A function that always raises [ValueError]. *)
Definition fn_sample : callable :=
  fun _ _ w => (Exc (mkExn ValueError [VInt 7]), w).

(** A function that ends the interpreter, as [sys.exit()] does. *)
Definition fn_exit : callable :=
  fun _ _ w => (Exc (mkExn SystemExit [VInt 0]), w).

(** A callback interrupted from the keyboard on the first path it is given. *)
Definition cb_interrupted : callable :=
  fun _ _ w => (Exc (mkExn KeyboardInterrupt []), w).

(** A handler that answers with its arguments. *)
Definition echo_sample : callable :=
  fun args _ w => (Ok (VList args), w).

(** What the interpreter prints for an exception, for the samples. *)
Definition repr_sample : exn -> string := fun _ => "ValueError(7,)".

Definition format_exc_sample : exn -> string := fun _ => "Traceback (most recent call last)".

(** The innermost frames where [async_call] is called, its own frame last. *)
Definition stack_sample : list string := ["plugin.py:3 "; "plugin.py:8 "; "nvim.py:305 "].

(** The keyword predicate of [call] and the registry of [from_session] on
    the sample inputs. *)
Definition kwargs_async : gmap string value := {[ "async" := VBool true ]}.

Definition kwargs_timeout : gmap string value := {[ "timeout" := VInt 1 ]}.

Definition kwargs_none : gmap string value := ∅.

(** [metadata_sample] with its byte strings decoded. *)
Definition metadata_text : value :=
  VDict [(VStr "types",
          VDict [(VStr "Buffer", VDict [(VStr "id", VInt 0)]);
                 (VStr "Window", VDict [(VStr "id", VInt 1)]);
                 (VStr "Tabpage", VDict [(VStr "id", VInt 2)])])].

(** ** The other methods of the file *)

(** [next_message].  [session_next_message] is [self._session.next_message],
    a method of neovim/msgpack_rpc taken as it comes: a computation that
    gives the next message of the session. *)
Definition next_message (self : Nvim) (session_next_message : M value) : M value :=
  let! msg := session_next_message in
  if truthy msg then walk (_from_nvim self) msg else ret VNone.

Definition eval (self : Nvim) (string async : value) : M value :=
  request self (lit "vim_eval") [string] {[ "async" := async ]}.

(** [chdir].  [os_chdir] is the module's [os_chdir = os.chdir], a callable of
    the standard library taken as it comes. *)
Definition chdir (self : Nvim) (os_chdir : callable) (dir_path : value) : M value :=
  exec! call_py os_chdir [dir_path] ∅ in
  request self (lit "vim_change_directory") [dir_path] ∅.

(** ** class Current *)

(** [Current] keeps the [Nvim] instance it is built with as [_session]: its
    properties are requests of that instance. *)
Definition Current_line (session : Nvim) : M value :=
  request session (lit "vim_get_current_line") [] ∅.

Definition Current_set_line (session : Nvim) (line : value) : M value :=
  request session (lit "vim_set_current_line") [line] ∅.

Definition Current_buffer (session : Nvim) : M value :=
  request session (lit "vim_get_current_buffer") [] ∅.

Definition Current_set_buffer (session : Nvim) (buffer : value) : M value :=
  request session (lit "vim_set_current_buffer") [buffer] ∅.

Definition Current_window (session : Nvim) : M value :=
  request session (lit "vim_get_current_window") [] ∅.

Definition Current_set_window (session : Nvim) (window : value) : M value :=
  request session (lit "vim_set_current_window") [window] ∅.

Definition Current_tabpage (session : Nvim) : M value :=
  request session (lit "vim_get_current_tabpage") [] ∅.

Definition Current_set_tabpage (session : Nvim) (tabpage : value) : M value :=
  request session (lit "vim_set_current_tabpage") [tabpage] ∅.

(** ** class Funcs *)

(** [Funcs.__getattr__(name)]: [functools.partial(self._nvim.call, name)],
    the attribute name being a string literal of the caller. *)
Definition Funcs_getattr (nvim : Nvim) (name : string)
    : list value -> gmap string value -> M value :=
  fun args kwargs => call nvim (lit name) args kwargs.

(** ** Further predicates on values *)

(** A value as msgpack delivers it: no proxy and no tuple at any depth,
    wire references with the codes [ExtType] takes (0 to 127), dicts with
    plain keys. *)
Fixpoint wire_value (v : value) {struct v} : bool :=
  match v with
  | VRemote _ | VTuple _ => false
  | VExt code _ => (0 <=? code) && (code <=? 127)
  | VList l => forallb wire_value l
  | VDict d => forallb (fun kv => plain_key (fst kv) && wire_value (snd kv)) d
  | _ => true
  end.

(** A byte string somewhere in the value, at any depth. *)
Fixpoint has_bytes (v : value) {struct v} : bool :=
  match v with
  | VBytes _ => true
  | VList l | VTuple l => existsb has_bytes l
  | VDict d => existsb (fun kv => has_bytes (fst kv) || has_bytes (snd kv)) d
  | _ => false
  end.

(** The values the decoding of an instance goes through at every depth: as
    msgpack delivers them, with wire references of registered tags only, and
    with nothing in them for a decoding policy to decode (the instance has
    no policy, or the value holds no byte string). *)
Definition decodable (self : Nvim) (v : value) : bool :=
  wire_value v && registered self v &&
  match _decodehook self with
  | None => true
  | Some _ => negb (has_bytes v)
  end.

(** The message [request] hands to the session when its arguments are
    encoded. *)
Definition request_msg (name : value) (args : list value)
    (kwargs : gmap string value) : out_msg :=
  if async_option kwargs
  then Notification name (map to_wire args)
  else Request name (map to_wire args).

(** Further sample inputs. *)
Definition host_current_buffer : list out_msg -> reply :=
  fun _ => Result (VExt 0 payload1).

Definition host_unknown_ref : list out_msg -> reply :=
  fun _ => Result (VList [VExt 0 payload1; VList [VExt 9 payload2]]).

Definition host_no_types : list out_msg -> reply :=
  fun _ => Result (VList [VInt 3; VDict []]).

Definition metadata_shared_id : value :=
  VDict [(VBytes "types",
          VDict [(VBytes "Buffer", VDict [(VBytes "id", VInt 0)]);
                 (VBytes "Window", VDict [(VBytes "id", VInt 0)]);
                 (VBytes "Tabpage", VDict [(VBytes "id", VInt 2)])])].

Definition host_shared_id : list out_msg -> reply :=
  fun _ => Result (VList [VInt 3; metadata_shared_id]).

(** [os.chdir] failing, as on a directory that does not exist. *)
Definition os_chdir_failing : callable :=
  fun _ _ w =>
    (Exc (mkExn (UserException "OSError" Exception) [VBytes "No such file or directory"]), w).

(** An instance whose registry holds the tag 200, and a proxy with it. *)
Definition nvim_wide : Nvim :=
  mkNvim 0 (VInt 1) VNone [(VInt 200, Buffer)] None.

Definition proxy_wide : Remote := mkRemote 9 Buffer 0 (200, payload1).

(** ** The monad *)

(** [class NvimError(Exception): pass]. *)
Lemma NvimError_is_Exception : issubclass NvimError Exception = true.
Proof. reflexivity. Qed.

Lemma bind_Return {A B} (m : M A) (k : A -> M B) (w w' : world) (a : A) :
  m w = (Return a, w') -> bind m k w = k a w'.
Proof. intros H. unfold bind. rewrite H. reflexivity. Qed.

Lemma bind_Raise {A B} (m : M A) (k : A -> M B) (w w' : world) (e : exn) :
  m w = (Raise e, w') -> bind m k w = (Raise e, w').
Proof. intros H. unfold bind. rewrite H. reflexivity. Qed.

Lemma bind_Hang {A B} (m : M A) (k : A -> M B) (w w' : world) :
  m w = (Hang, w') -> bind m k w = (Hang, w').
Proof. intros H. unfold bind. rewrite H. reflexivity. Qed.

(** ** [walk] *)

(** A translation that cannot fail, walked: the world is left alone and the
    value is the deep image. *)
Lemma walk_ret (f : value -> value) (v : value) (w : world) :
  walk (fun o => ret (f o)) v w = (Return (deep_map f v), w).
Proof.
  revert w. induction v as [| | | | |l IH|l IH|d IH| |] using value_ind_deep;
    intros w; try reflexivity.
  - cbn [walk deep_map].
    erewrite bind_Return; [reflexivity|].
    revert w. induction IH as [|x l Hx _ IHl]; intros w; [reflexivity|].
    erewrite bind_Return by apply Hx.
    erewrite bind_Return by apply IHl.
    reflexivity.
  - cbn [walk deep_map].
    erewrite bind_Return; [reflexivity|].
    revert w. induction IH as [|x l Hx _ IHl]; intros w; [reflexivity|].
    erewrite bind_Return by apply Hx.
    erewrite bind_Return by apply IHl.
    reflexivity.
  - cbn [walk deep_map].
    erewrite bind_Return; [reflexivity|].
    revert w. induction IH as [|[k v] d [Hk Hv] _ IHd]; intros w; [reflexivity|].
    erewrite bind_Return by apply Hk.
    erewrite bind_Return by apply Hv.
    erewrite bind_Return by apply IHd.
    reflexivity.
Qed.

Lemma bind_inv_Return {A B} (m : M A) (k : A -> M B) (w w' : world) (b : B) :
  bind m k w = (Return b, w') ->
  exists a w1, m w = (Return a, w1) /\ k a w1 = (Return b, w').
Proof.
  unfold bind. destruct (m w) as [[a|e|] w1]; intros H; try discriminate.
  exists a, w1. split; [reflexivity|exact H].
Qed.

Lemma ret_inv {A} (a b : A) (w w' : world) :
  ret a w = (Return b, w') -> a = b /\ w = w'.
Proof. unfold ret. intros H. inversion H. split; reflexivity. Qed.

(** ** The codec *)

(** [ExtType] takes the tags from 0 to 127 and no other. *)
Lemma ExtType_valid (code : Z) (data : string) :
  0 <= code <= 127 -> ExtType code data = Ok (VExt code data).
Proof.
  intros H. unfold ExtType.
  rewrite (proj2 (Z.leb_le 0 code)) by lia.
  rewrite (proj2 (Z.leb_le code 127)) by lia.
  reflexivity.
Qed.

Lemma _to_nvim_proxy (self : Nvim) (r : Remote) :
  encodable (VRemote r) = true -> _to_nvim self (VRemote r) = Ok (wire_ref r).
Proof.
  cbn [encodable]. intros H. unfold _to_nvim, ExtType. rewrite H. reflexivity.
Qed.

Lemma _to_nvim_invalid_tag (self : Nvim) (r : Remote) :
  encodable (VRemote r) = false ->
  _to_nvim self (VRemote r) = Exc (mkExn ValueError [lit "code must be 0~127"]).
Proof.
  cbn [encodable]. intros H. unfold _to_nvim, ExtType. rewrite H. reflexivity.
Qed.

Lemma plain_key_walk (self : Nvim) (k : value) (w : world) :
  plain_key k = true ->
  walk (fun o => lift (_to_nvim self o)) k w = (Return k, w) /\ to_wire k = k.
Proof. destruct k; try discriminate; intros _; split; reflexivity. Qed.

(** The encoding of an encodable value comes back, with the value encoded at
    every depth, and leaves the world alone. *)
Lemma walk_to_nvim_encodable (self : Nvim) (v : value) (w : world) :
  encodable v = true ->
  walk (fun o => lift (_to_nvim self o)) v w = (Return (to_wire v), w).
Proof.
  revert w. induction v as [| | | | |l IH|l IH|d IH| |r] using value_ind_deep;
    intros w Henc; try reflexivity.
  - cbn [walk]. unfold to_wire. cbn [deep_map]. cbn [encodable] in Henc.
    erewrite bind_Return; [reflexivity|].
    revert w. induction IH as [|x l Hx _ IHl]; intros w; [reflexivity|].
    cbn [forallb] in Henc. apply andb_true_iff in Henc as [Hex Hel].
    erewrite bind_Return by (apply Hx; exact Hex).
    erewrite bind_Return by (apply IHl; exact Hel).
    reflexivity.
  - cbn [walk]. unfold to_wire. cbn [deep_map]. cbn [encodable] in Henc.
    erewrite bind_Return; [reflexivity|].
    revert w. induction IH as [|x l Hx _ IHl]; intros w; [reflexivity|].
    cbn [forallb] in Henc. apply andb_true_iff in Henc as [Hex Hel].
    erewrite bind_Return by (apply Hx; exact Hex).
    erewrite bind_Return by (apply IHl; exact Hel).
    reflexivity.
  - cbn [walk]. unfold to_wire. cbn [deep_map]. cbn [encodable] in Henc.
    erewrite bind_Return; [reflexivity|].
    revert w. induction IH as [|[k v] d [_ Hv] _ IHd]; intros w; [reflexivity|].
    cbn [forallb fst snd] in Henc.
    apply andb_true_iff in Henc as [Hkv Hed].
    apply andb_true_iff in Hkv as [Hk Hev].
    destruct (plain_key_walk self k w Hk) as [Hwk Hkk].
    erewrite bind_Return by exact Hwk.
    erewrite bind_Return by (apply Hv; exact Hev).
    erewrite bind_Return by (apply IHd; exact Hed).
    cbn [map fst snd]. unfold to_wire in Hkk. rewrite Hkk. reflexivity.
  - cbn [walk]. rewrite _to_nvim_proxy by exact Henc. reflexivity.
Qed.

Lemma bind_pure {A B} (m : M A) (r : result A) (k : A -> M B) (w : world) :
  m w = lift r w ->
  bind m k w = match r with
               | Ok a => k a w
               | Exc e => (Raise e, w)
               end.
Proof. intros H. unfold bind. rewrite H. destruct r; reflexivity. Qed.

(** The encoding is a pure step: it returns or raises, and leaves the world
    alone whichever it does. *)
Lemma walk_to_nvim_pure (self : Nvim) (v : value) (w : world) :
  exists r : result value, walk (fun o => lift (_to_nvim self o)) v w = lift r w.
Proof.
  revert w. induction v as [| | | | |l IH|l IH|d IH| |r] using value_ind_deep;
    intros w; try (eexists; reflexivity).
  - cbn [walk].
    enough (exists rl : result (list value),
              (fix each (l : list value) : M (list value) :=
                 match l with
                 | [] => ret []
                 | o :: l0 =>
                     let! o' := walk (fun o => lift (_to_nvim self o)) o in
                     let! l0' := each l0 in
                     ret (o' :: l0')
                 end) l w = lift rl w) as [rl Hrl].
    { rewrite (bind_pure _ _ _ _ Hrl). destruct rl as [l'|e];
        [exists (Ok (VList l'))|exists (Exc e)]; reflexivity. }
    revert w. induction IH as [|x l Hx _ IHl]; intros w; [exists (Ok []); reflexivity|].
    destruct (Hx w) as [rx Hrx]. rewrite (bind_pure _ _ _ _ Hrx).
    destruct rx as [x'|e]; [|exists (Exc e); reflexivity].
    destruct (IHl w) as [rl Hrl]. rewrite (bind_pure _ _ _ _ Hrl).
    destruct rl as [l'|e]; [exists (Ok (x' :: l'))|exists (Exc e)]; reflexivity.
  - cbn [walk].
    enough (exists rl : result (list value),
              (fix each (l : list value) : M (list value) :=
                 match l with
                 | [] => ret []
                 | o :: l0 =>
                     let! o' := walk (fun o => lift (_to_nvim self o)) o in
                     let! l0' := each l0 in
                     ret (o' :: l0')
                 end) l w = lift rl w) as [rl Hrl].
    { rewrite (bind_pure _ _ _ _ Hrl). destruct rl as [l'|e];
        [exists (Ok (VList l'))|exists (Exc e)]; reflexivity. }
    revert w. induction IH as [|x l Hx _ IHl]; intros w; [exists (Ok []); reflexivity|].
    destruct (Hx w) as [rx Hrx]. rewrite (bind_pure _ _ _ _ Hrx).
    destruct rx as [x'|e]; [|exists (Exc e); reflexivity].
    destruct (IHl w) as [rl Hrl]. rewrite (bind_pure _ _ _ _ Hrl).
    destruct rl as [l'|e]; [exists (Ok (x' :: l'))|exists (Exc e)]; reflexivity.
  - cbn [walk].
    enough (exists rd : result (list (value * value)),
              (fix each (d : list (value * value)) : M (list (value * value)) :=
                 match d with
                 | [] => ret []
                 | (k, v) :: d0 =>
                     let! k' := walk (fun o => lift (_to_nvim self o)) k in
                     let! v' := walk (fun o => lift (_to_nvim self o)) v in
                     let! d0' := each d0 in
                     ret ((k', v') :: d0')
                 end) d w = lift rd w) as [rd Hrd].
    { rewrite (bind_pure _ _ _ _ Hrd). destruct rd as [d'|e];
        [exists (Ok (VDict d'))|exists (Exc e)]; reflexivity. }
    revert w. induction IH as [|[k v] d [Hk Hv] _ IHd]; intros w;
      [exists (Ok []); reflexivity|].
    cbn [fst snd] in Hk, Hv.
    destruct (Hk w) as [rk Hrk]. rewrite (bind_pure _ _ _ _ Hrk).
    destruct rk as [k'|e]; [|exists (Exc e); reflexivity].
    destruct (Hv w) as [rv Hrv]. rewrite (bind_pure _ _ _ _ Hrv).
    destruct rv as [v'|e]; [|exists (Exc e); reflexivity].
    destruct (IHd w) as [rd Hrd]. rewrite (bind_pure _ _ _ _ Hrd).
    destruct rd as [d'|e]; [exists (Ok ((k', v') :: d'))|exists (Exc e)]; reflexivity.
Qed.

(** Walked, a tuple is a list. *)
Lemma walk_tuple_list (fn : value -> M value) (l : list value) (a : value)
    (w w' : world) :
  walk fn (VTuple l) w = (Return a, w') -> exists l', a = VList l'.
Proof.
  cbn [walk]. intros H. apply bind_inv_Return in H as (l' & w1 & _ & Hret).
  apply ret_inv in Hret as [<- _]. exists l'. reflexivity.
Qed.

(** Encoded at every depth, a value holds no proxy any more. *)
Lemma has_remote_to_wire (v : value) : has_remote (to_wire v) = false.
Proof.
  unfold to_wire.
  induction v as [| | | | |l IH|l IH|d IH| |] using value_ind_deep;
    try reflexivity.
  - cbn [deep_map has_remote].
    induction IH as [|x l Hx _ IHl]; [reflexivity|].
    cbn [map existsb]. rewrite Hx, IHl. reflexivity.
  - cbn [deep_map has_remote].
    induction IH as [|x l Hx _ IHl]; [reflexivity|].
    cbn [map existsb]. rewrite Hx, IHl. reflexivity.
  - cbn [deep_map has_remote].
    induction IH as [|[k v] d [Hk Hv] _ IHd]; [reflexivity|].
    cbn [map existsb fst snd] in *. rewrite Hk, Hv, IHd. reflexivity.
Qed.

(** A string literal is encoded to itself. *)
Lemma to_wire_lit (s : string) : to_wire (lit s) = lit s.
Proof. unfold lit. destruct IS_PYTHON3; reflexivity. Qed.

Lemma encodable_lit (s : string) : encodable (lit s) = true.
Proof. unfold lit. destruct IS_PYTHON3; reflexivity. Qed.

Lemma Remote_eq_refl (r : Remote) : Remote_eq r r = true.
Proof.
  unfold Remote_eq. rewrite Z.eqb_refl, String.eqb_refl. reflexivity.
Qed.

Lemma Remote_eq_code_data (a b : Remote) :
  Remote_eq a b = true <-> code_data a = code_data b.
Proof.
  unfold Remote_eq. destruct (code_data a) as [c d], (code_data b) as [c' d'].
  cbn [fst snd]. rewrite andb_true_iff, Z.eqb_eq, String.eqb_eq.
  split; [intros [-> ->]; reflexivity|intros H; inversion H; split; reflexivity].
Qed.

(** Decoding a wire reference of a registered tag: a new object of the
    registered class, bound to the instance, keeping tag and payload. *)
Lemma _from_nvim_registered (self : Nvim) (code : Z) (data : string)
    (cls : RemoteClass) (w : world) :
  dict_get (VInt code) (types self) = Some cls ->
  _from_nvim self (VExt code data) w =
    (Return (VRemote (mkRemote (next_oid w) cls (nv_oid self) (code, data))),
     mkWorld (S (next_oid w)) (outbox w) (host w) (error_wrapper w)).
Proof. intros H. unfold _from_nvim. rewrite H. reflexivity. Qed.

(** C1, as the code has it. For every registered type-tag T from 0 to 127
    (the tags [ExtType] takes) and payload I, encoding a proxy that carries
    (T, I) with [_to_nvim] gives the wire reference (T, I), decoding that
    wire reference with [_from_nvim] gives a proxy equal to the original, and
    two decodes of the same (T, I) give proxies equal to each other that are
    not the same object. *)
Theorem roundtrip_proxy_equal (self : Nvim) (r : Remote) (T : Z) (I : string)
    (cls : RemoteClass) (w : world) :
  code_data r = (T, I) ->
  0 <= T <= 127 ->
  dict_get (VInt T) (types self) = Some cls ->
  _to_nvim self (VRemote r) = Ok (VExt T I) /\
  exists r1 r2 w1 w2,
    bind (lift (_to_nvim self (VRemote r))) (_from_nvim self) w =
      (Return (VRemote r1), w1) /\
    _from_nvim self (VExt T I) w1 = (Return (VRemote r2), w2) /\
    Remote_eq r1 r = true /\
    Remote_eq r2 r = true /\
    Remote_eq r1 r2 = true /\
    Remote_is r1 r2 = false.
Proof.
  intros Hcd Htag Hreg.
  assert (Henc : _to_nvim self (VRemote r) = Ok (VExt T I)).
  { unfold _to_nvim. rewrite Hcd. apply ExtType_valid. exact Htag. }
  split; [exact Henc|].
  rewrite Henc. cbn [lift]. unfold bind at 1. cbn [ret].
  eexists _, _, _, _.
  split; [apply _from_nvim_registered; exact Hreg|].
  split; [apply _from_nvim_registered; exact Hreg|].
  cbn [next_oid].
  repeat split.
  - apply Remote_eq_code_data. rewrite Hcd. reflexivity.
  - apply Remote_eq_code_data. rewrite Hcd. reflexivity.
  - apply Remote_eq_code_data. reflexivity.
  - unfold Remote_is. cbn [oid]. apply Nat.eqb_neq. lia.
Qed.

(** C2, as the code has it. A wire reference whose type-tag is not in the
    registry is not passed through: the lookup [self.types[obj.code]] fails
    and [_from_nvim] raises [KeyError] with the tag, whatever the decoding
    policy; nothing is allocated. *)
Theorem _from_nvim_unregistered_raises (self : Nvim) (code : Z) (data : string)
    (w : world) :
  dict_get (VInt code) (types self) = None ->
  _from_nvim self (VExt code data) w = (Raise (mkExn KeyError [VInt code]), w).
Proof. intros H. unfold _from_nvim. rewrite H. reflexivity. Qed.

(** ** [request] *)

(** The arguments reach the session encoded at every depth. *)
Lemma request_eq (self : Nvim) (name : value) (args : list value)
    (kwargs : gmap string value) (w : world) :
  forallb encodable args = true ->
  request self name args kwargs w =
  bind (session_request name (map to_wire args) kwargs)
       (walk (_from_nvim self)) w.
Proof.
  intros Henc. unfold request.
  erewrite bind_Return by (apply walk_to_nvim_encodable; exact Henc).
  reflexivity.
Qed.

Lemma _from_nvim_None (self : Nvim) (w : world) :
  walk (_from_nvim self) VNone w = (Return VNone, w).
Proof. cbn. destruct (_decodehook self); reflexivity. Qed.

(** The notification path of [request]. *)
Lemma request_async_eq (self : Nvim) (name : value)
    (args : list value) (kwargs : gmap string value) (w : world) :
  forallb encodable args = true ->
  async_option kwargs = true ->
  request self name args kwargs w =
    (Return VNone,
     mkWorld (next_oid w)
       (outbox w ++ [Notification name (map to_wire args)])
       (host w) (error_wrapper w)).
Proof.
  intros Henc Hasync. rewrite request_eq by exact Henc.
  unfold session_request. rewrite Hasync.
  unfold bind at 1. unfold bind at 1. cbn [send].
  apply _from_nvim_None.
Qed.

(** C6, as the code has it. With the asynchronous option set and arguments
    the encoding goes through, [request] sends one notification, carrying
    the arguments encoded at every depth, and no correlated request,
    consults no reply of the host (so it returns whatever the host does,
    also when the host never responds) and returns None. *)
Theorem request_async_is_notification (self : Nvim) (name : value)
    (args : list value) (kwargs : gmap string value) (w : world) :
  forallb encodable args = true ->
  async_option kwargs = true ->
  request self name args kwargs w =
    (Return VNone,
     mkWorld (next_oid w)
       (outbox w ++ [Notification name (map to_wire args)])
       (host w) (error_wrapper w)).
Proof.
  intros Henc Hasync. rewrite request_eq by exact Henc.
  unfold session_request. rewrite Hasync.
  erewrite bind_Return; [apply _from_nvim_None|].
  reflexivity.
Qed.

(** The blocking path, for contrast: a request the host leaves unanswered
    never comes back. *)
Lemma request_sync_silent_hangs (self : Nvim) (name : value)
    (args : list value) (kwargs : gmap string value) (w : world) :
  forallb encodable args = true ->
  async_option kwargs = false ->
  host w (outbox w ++ [Request name (map to_wire args)]) = Silent ->
  fst (request self name args kwargs w) = Hang.
Proof.
  intros Henc Hsync Hsilent. rewrite request_eq by exact Henc.
  unfold session_request. rewrite Hsync.
  unfold bind at 1. unfold bind at 1. cbn [send outbox host error_wrapper next_oid].
  rewrite Hsilent. reflexivity.
Qed.

(** The blocking path when the host reports an error: what is raised is what
    the session's [error_wrapper] makes of the payload. *)
Lemma request_sync_host_error (self : Nvim) (name : value)
    (args : list value) (kwargs : gmap string value) (w : world) (e : value) :
  forallb encodable args = true ->
  async_option kwargs = false ->
  host w (outbox w ++ [Request name (map to_wire args)]) = HostError e ->
  request self name args kwargs w =
    (match error_wrapper w e with
     | Ok err => Raise err
     | Exc err => Raise err
     end,
     mkWorld (next_oid w)
       (outbox w ++ [Request name (map to_wire args)])
       (host w) (error_wrapper w)).
Proof.
  intros Henc Hsync Herr. rewrite request_eq by exact Henc.
  unfold session_request. rewrite Hsync.
  unfold bind at 1. unfold bind at 1. cbn [send outbox host error_wrapper next_oid].
  rewrite Herr. destruct (error_wrapper w e); reflexivity.
Qed.

(** The blocking path when the connection closes first. *)
Lemma request_sync_closed (self : Nvim) (name : value)
    (args : list value) (kwargs : gmap string value) (w : world) :
  forallb encodable args = true ->
  async_option kwargs = false ->
  host w (outbox w ++ [Request name (map to_wire args)]) = Closed ->
  request self name args kwargs w =
    (Raise (mkExn IOError [lit "EOF"]),
     mkWorld (next_oid w)
       (outbox w ++ [Request name (map to_wire args)])
       (host w) (error_wrapper w)).
Proof.
  intros Henc Hsync Hclosed. rewrite request_eq by exact Henc.
  unfold session_request. rewrite Hsync.
  unfold bind at 1. unfold bind at 1. cbn [send outbox host error_wrapper next_oid].
  rewrite Hclosed. reflexivity.
Qed.

(** The blocking path when the host answers. *)
Lemma request_sync_result (self : Nvim) (name : value)
    (args : list value) (kwargs : gmap string value) (w : world) (res : value) :
  forallb encodable args = true ->
  async_option kwargs = false ->
  host w (outbox w ++ [Request name (map to_wire args)]) = Result res ->
  request self name args kwargs w =
    walk (_from_nvim self) res
      (mkWorld (next_oid w)
         (outbox w ++ [Request name (map to_wire args)])
         (host w) (error_wrapper w)).
Proof.
  intros Henc Hsync Hres. rewrite request_eq by exact Henc.
  unfold session_request. rewrite Hsync.
  unfold bind at 1. unfold bind at 1. cbn [send outbox host error_wrapper next_oid].
  rewrite Hres. reflexivity.
Qed.

(** C3, as the code has it. On a session set up by [from_session] (its
    [error_wrapper] is [lambda e: NvimError(e[1])]), a synchronous request
    whose arguments the encoding goes through, and which the host answers
    with an error payload [e] that has an item at index 1, raises [NvimError]
    carrying that item, [e[1]], unchanged; the rest of the payload is
    dropped. *)
Theorem request_host_error_raises_NvimError (self : Nvim) (name : value)
    (args : list value) (kwargs : gmap string value) (w : world) (e e1 : value) :
  error_wrapper w = nvim_error_wrapper ->
  forallb encodable args = true ->
  async_option kwargs = false ->
  host w (outbox w ++ [Request name (map to_wire args)]) = HostError e ->
  py_getitem e (VInt 1) = Ok e1 ->
  request self name args kwargs w =
    (Raise (mkExn NvimError [e1]),
     mkWorld (next_oid w)
       (outbox w ++ [Request name (map to_wire args)])
       (host w) (error_wrapper w)).
Proof.
  intros Hwrap Henc Hsync Herr Hitem.
  rewrite (request_sync_host_error self name args kwargs w e Henc Hsync Herr).
  rewrite Hwrap. unfold nvim_error_wrapper. rewrite Hitem. reflexivity.
Qed.

(** ** [quit] *)

Lemma command_eq (self : Nvim) (string async : value) (w : world) :
  command self string async w =
  request self (lit "vim_command") [string] {[ "async" := async ]} w.
Proof. reflexivity. Qed.

(** C10. When the quit command fails with an [IOError] (the connection
    closing before a response arrives), [quit] swallows it and returns
    normally, with None. *)
Theorem quit_swallows_IOError (self : Nvim) (quit_command : value)
    (w w' : world) (e : exn) :
  command self quit_command (VBool false) w = (Raise e, w') ->
  isinstance_exn e IOError = true ->
  quit self quit_command w = (Return VNone, w').
Proof.
  intros Hcmd Hio. unfold quit, try_except.
  erewrite bind_Raise by exact Hcmd.
  rewrite Hio. reflexivity.
Qed.

(** The connection closing before the response to the quit command arrives
    is such a failure. *)
Lemma quit_connection_closed (self : Nvim) (quit_command : value) (w : world) :
  encodable quit_command = true ->
  host w (outbox w ++
          [Request (lit "vim_command") [to_wire quit_command]]) = Closed ->
  quit self quit_command w =
    (Return VNone,
     mkWorld (next_oid w)
       (outbox w ++
        [Request (lit "vim_command") [to_wire quit_command]])
       (host w) (error_wrapper w)).
Proof.
  intros Henc Hclosed. unfold quit, try_except.
  erewrite bind_Raise.
  2:{ rewrite command_eq. apply request_sync_closed;
        [cbn [forallb]; rewrite Henc; reflexivity|reflexivity|exact Hclosed]. }
  reflexivity.
Qed.

(** ** [call] *)

Lemma call_keys_all_async (keys : list string) (w : world) :
  Forall (fun k => k = "async") keys ->
  for_each keys (fun k =>
    if String.eqb k "async" then ret Next
    else raise (unexpected_keyword k)) w
  = (Return tt, w).
Proof.
  induction 1 as [|k keys Hk _ IH]; [reflexivity|].
  subst k. cbn [for_each]. unfold bind at 1. cbn. exact IH.
Qed.

Lemma call_keys_unexpected (keys : list string) (w : world) :
  Exists (fun k => k <> "async") keys ->
  exists k, k ∈ keys /\ k <> "async" /\
  for_each keys (fun k =>
    if String.eqb k "async" then ret Next
    else raise (unexpected_keyword k)) w
  = (Raise (unexpected_keyword k), w).
Proof.
  induction keys as [|k keys IH]; intros Hex.
  - inversion Hex.
  - destruct (String.eqb k "async") eqn:Hk.
    + apply String.eqb_eq in Hk. subst k.
      apply Exists_cons in Hex as [Hbad|Hex]; [congruence|].
      destruct (IH Hex) as (k' & Hin & Hne & Hrun).
      exists k'. split; [right; exact Hin|]. split; [exact Hne|].
      cbn [for_each]. unfold bind at 1. cbn. exact Hrun.
    + exists k. split; [left|]. split.
      * intros ->. discriminate.
      * cbn [for_each]. unfold bind at 1. rewrite Hk. reflexivity.
Qed.

(** C8. [call] with a keyword argument other than "async" raises [TypeError]
    (naming such a keyword) with the world as it was, nothing having been
    sent; with only the "async" keyword, or none, it is the request
    'vim_call_function' with the function name and the tuple of the
    arguments, the keywords handed on. *)
Theorem call_checks_keywords (self : Nvim) (name : value) (args : list value)
    (kwargs : gmap string value) (w : world) :
  (forall k, is_Some (kwargs !! k) -> k <> "async" ->
     exists k', is_Some (kwargs !! k') /\ k' <> "async" /\
       call self name args kwargs w = (Raise (unexpected_keyword k'), w)) /\
  ((forall k, is_Some (kwargs !! k) -> k = "async") ->
     call self name args kwargs w =
     request self (lit "vim_call_function") [name; VTuple args] kwargs w).
Proof.
  split.
  - intros k [v Hk] Hne.
    destruct (call_keys_unexpected (map fst (map_to_list kwargs)) w) as (k' & Hin & Hne' & Hrun).
    { apply Exists_exists. exists k. split; [|exact Hne].
      apply list_elem_of_fmap. exists (k, v). split; [reflexivity|].
      apply elem_of_map_to_list. exact Hk. }
    exists k'. split; [|split; [exact Hne'|]].
    + apply list_elem_of_fmap in Hin as ([k0 v0] & -> & Hin).
      apply elem_of_map_to_list in Hin. exists v0. exact Hin.
    + unfold call. erewrite bind_Raise by exact Hrun. reflexivity.
  - intros Hall. unfold call.
    erewrite bind_Return; [reflexivity|].
    apply call_keys_all_async.
    apply Forall_forall. intros k Hin.
    apply list_elem_of_fmap in Hin as ([k0 v0] & -> & Hin).
    apply elem_of_map_to_list in Hin. apply Hall. exists v0. exact Hin.
Qed.

(** ** [foreach_rtp] *)

(** The loop of [foreach_rtp] comes back normally, having invoked the
    callback on the paths up to the first one it did not answer with None. *)
Lemma foreach_rtp_loop (cb : callable) (paths : list value) (w : world) :
  (forall args kwargs w0 e w1,
     cb args kwargs w0 = (Exc e, w1) -> isinstance_exn e Exception = true) ->
  for_each paths (fun path =>
    try_except
      (let! v := call_py cb [path] ∅ in
       if is_None v then ret Next else ret Break)
      Exception
      (fun _ => ret Break)) w
  = (Return tt, snd (visited cb paths w)).
Proof.
  intros Hexc. revert w. induction paths as [|path rest IH]; intros w; [reflexivity|].
  cbn [for_each visited]. unfold bind at 1, try_except, bind at 1, call_py.
  destruct (cb [path] ∅ w) as [[v|e] w'] eqn:Hcb.
  - destruct v; cbn [is_None ret snd]; try reflexivity.
    rewrite IH. destruct (visited cb rest w'). reflexivity.
  - rewrite (Hexc _ _ _ _ _ Hcb). reflexivity.
Qed.

(** What [visited] keeps is an initial segment of the paths. *)
Lemma visited_prefix (cb : callable) (paths : list value) (w : world) :
  exists rest, paths = fst (visited cb paths w) ++ rest.
Proof.
  revert w. induction paths as [|path rest IH]; intros w; [exists []; reflexivity|].
  cbn [visited]. destruct (cb [path] ∅ w) as [[v|e] w'].
  - destruct v; try (exists rest; reflexivity).
    destruct (IH w') as [tl Htl]. destruct (visited cb rest w') as [seen w''].
    exists tl. cbn [fst] in *. cbn. congruence.
  - exists rest. reflexivity.
Qed.

(** C9, as the code has it. For a callback that raises nothing but
    instances of [Exception], [foreach_rtp] returns None whatever the
    callback returns: the callback is invoked on the paths in turn up to the
    first one for which it returns a value other than None or raises, the
    exception is swallowed, and neither the value nor the exception reaches
    the caller. *)
Theorem foreach_rtp_returns_None (self : Nvim) (cb : callable) (w w1 : world)
    (r : value) (paths : list value) :
  (forall args kwargs w0 e w',
     cb args kwargs w0 = (Exc e, w') -> isinstance_exn e Exception = true) ->
  request self (lit "vim_list_runtime_paths") [] ∅ w = (Return r, w1) ->
  py_iter r = Ok paths ->
  foreach_rtp self cb w = (Return VNone, snd (visited cb paths w1)) /\
  exists rest, paths = fst (visited cb paths w1) ++ rest.
Proof.
  intros Hexc Hreq Hiter. split; [|apply visited_prefix].
  unfold foreach_rtp.
  erewrite bind_Return by exact Hreq.
  rewrite Hiter. cbn [lift].
  unfold bind at 1. cbn [ret].
  erewrite bind_Return by (apply foreach_rtp_loop; exact Hexc).
  reflexivity.
Qed.

(** ** [async_call] *)

(** The report of [handler]: one notification 'vim_err_write' with the text. *)
Lemma err_write_async (self : Nvim) (s : string) (w : world) :
  err_write self (lit s) (VBool true) w =
    (Return VNone,
     mkWorld (next_oid w)
       (outbox w ++ [Notification (lit "vim_err_write") [lit s]])
       (host w) (error_wrapper w)).
Proof.
  unfold err_write. rewrite request_async_eq;
    [|cbn [forallb]; rewrite encodable_lit; reflexivity|reflexivity].
  cbn [map]. rewrite to_wire_lit. reflexivity.
Qed.

Lemma append_assoc (a b c : string) : (a +:+ b) +:+ c = a +:+ (b +:+ c).
Proof.
  induction a as [|x a IH]; [reflexivity|].
  change (String x ((a +:+ b) +:+ c) = String x (a +:+ (b +:+ c))).
  rewrite IH. reflexivity.
Qed.

(** The text of the report ends with the call site. *)
Lemma async_error_msg_call_point (err : exn) (call_point : string) :
  exists before, async_error_msg err call_point = before +:+ call_point.
Proof.
  exists ("error caught while executing async callback:" +:+ nl +:+
          repr_exn err +:+ nl +:+ format_exc err +:+ nl +:+ " " +:+ nl +:+
          "the call was requested at" +:+ nl).
  unfold async_error_msg. rewrite !append_assoc. reflexivity.
Qed.

(** C4, as the code has it. The task [async_call] schedules is its
    [handler], queued behind the tasks already pending.  When the loop thread
    runs it and [fn] raises an instance of [Exception], the failure is
    caught, reported by one 'vim_err_write' notification whose text ends with
    the call site of [async_call], and the same exception is raised again. *)
Theorem async_call_reports_and_reraises (self : Nvim) (fn : callable)
    (args : list value) (kwargs : gmap string value) (stack : list string)
    (s : scheduler) :
  exists task call_point,
    async_call self fn args kwargs stack s =
      mkScheduler (loop_world s) (deferred s ++ [task]) /\
    call_point = String.concat "" (removelast stack) /\
    forall (w w1 : world) (err : exn),
      fn args kwargs w = (Exc err, w1) ->
      isinstance_exn err Exception = true ->
      task w =
        (Raise err,
         mkWorld (next_oid w1)
           (outbox w1 ++
            [Notification (lit "vim_err_write")
               [lit (async_error_msg err call_point)]])
           (host w1) (error_wrapper w1)) /\
      exists before, async_error_msg err call_point = before +:+ call_point.
Proof.
  eexists _, _. split; [reflexivity|]. split; [reflexivity|].
  intros w w1 err Hfn Hexc. split; [|apply async_error_msg_call_point].
  unfold async_call_handler, try_except.
  unfold bind at 1, call_py. rewrite Hfn. rewrite Hexc.
  erewrite bind_Return by apply err_write_async.
  reflexivity.
Qed.

(** A task that runs without raising reports nothing. *)
Lemma async_call_handler_quiet (self : Nvim) (fn : callable)
    (args : list value) (kwargs : gmap string value) (call_point : string)
    (w w1 : world) (v : value) :
  fn args kwargs w = (Ok v, w1) ->
  async_call_handler self fn args kwargs call_point w = (Return VNone, w1).
Proof.
  intros Hfn. unfold async_call_handler, try_except.
  unfold bind at 1, call_py. rewrite Hfn. reflexivity.
Qed.

(** What is not an instance of [Exception] goes through [handler]
    unreported: [except Exception] does not match it. *)
Lemma async_call_handler_other (self : Nvim) (fn : callable)
    (args : list value) (kwargs : gmap string value) (call_point : string)
    (w w1 : world) (err : exn) :
  fn args kwargs w = (Exc err, w1) ->
  isinstance_exn err Exception = false ->
  async_call_handler self fn args kwargs call_point w = (Raise err, w1).
Proof.
  intros Hfn Hexc. unfold async_call_handler, try_except.
  unfold bind at 1, call_py. rewrite Hfn. rewrite Hexc. reflexivity.
Qed.

(** ** [from_session] *)

Lemma session_request_sync_result (name : value) (args : list value)
    (kwargs : gmap string value) (w : world) (res : value) :
  async_option kwargs = false ->
  host w (outbox w ++ [Request name args]) = Result res ->
  session_request name args kwargs w =
    (Return res,
     mkWorld (next_oid w) (outbox w ++ [Request name args]) (host w) (error_wrapper w)).
Proof.
  intros Hsync Hres. unfold session_request. rewrite Hsync.
  unfold bind at 1. cbn [send outbox host error_wrapper next_oid].
  rewrite Hres. reflexivity.
Qed.

(** The metadata as [from_session] keeps them: with their byte strings
    decoded at every depth on Python 3, as received on Python 2. *)
Lemma from_session_metadata (py3 : bool) (md : value) (w : world) :
  (if py3 then DecodeHook_walk DecodeHook_default md else ret md) w =
  (Return (if py3 then deep_map (decode_if_bytes DecodeHook_default) md else md), w).
Proof. destruct py3; [apply walk_ret|reflexivity]. Qed.

(** The registry of three distinct identifiers. *)
Lemma registry_lookups (b wn t : Z) :
  b <> wn -> b <> t -> wn <> t ->
  let types := dict_set (VInt t) Tabpage
                 (dict_set (VInt wn) Window (dict_set (VInt b) Buffer [])) in
  dict_get (VInt b) types = Some Buffer /\
  dict_get (VInt wn) types = Some Window /\
  dict_get (VInt t) types = Some Tabpage.
Proof.
  intros Hbw Hbt Hwt. cbn.
  rewrite (proj2 (Z.eqb_neq b wn) Hbw). cbn.
  rewrite (proj2 (Z.eqb_neq b t) Hbt), (proj2 (Z.eqb_neq wn t) Hwt). cbn.
  rewrite !Z.eqb_refl.
  rewrite (proj2 (Z.eqb_neq b wn) Hbw), (proj2 (Z.eqb_neq b t) Hbt),
          (proj2 (Z.eqb_neq wn t) Hwt).
  repeat split.
Qed.

(** C7. [from_session] sends exactly one message, the blocking request
    'vim_get_api_info' without arguments, takes the channel identifier and
    the metadata from its result, builds the registry that maps the
    identifiers the metadata give for Buffer, Window and Tabpage to these
    classes, and returns an instance with these attributes and no decoding
    policy, on a session whose [error_wrapper] is set. *)
Theorem from_session_establishes (w : world) (r cid md tys tb tw tt : value)
    (b wn t : Z) :
  let md' := if IS_PYTHON3 then deep_map (decode_if_bytes DecodeHook_default) md
             else md in
  let registry := dict_set (VInt t) Tabpage
                    (dict_set (VInt wn) Window (dict_set (VInt b) Buffer [])) in
  host w (outbox w ++ [Request (VBytes "vim_get_api_info") []]) = Result r ->
  unpack2 r = Ok (cid, md) ->
  py_getitem md' (lit "types") = Ok tys ->
  py_getitem tys (lit "Buffer") = Ok tb -> py_getitem tb (lit "id") = Ok (VInt b) ->
  py_getitem tys (lit "Window") = Ok tw -> py_getitem tw (lit "id") = Ok (VInt wn) ->
  py_getitem tys (lit "Tabpage") = Ok tt -> py_getitem tt (lit "id") = Ok (VInt t) ->
  from_session w =
    (Return (mkNvim (next_oid w) cid md' registry None),
     mkWorld (S (next_oid w))
       (outbox w ++ [Request (VBytes "vim_get_api_info") []])
       (host w) nvim_error_wrapper) /\
  (b <> wn -> b <> t -> wn <> t ->
   dict_get (VInt b) registry = Some Buffer /\
   dict_get (VInt wn) registry = Some Window /\
   dict_get (VInt t) registry = Some Tabpage).
Proof.
  intros md' registry Hhost Hunpack Htys Hb Hbid Hw Hwid Ht Htid.
  split; [|apply registry_lookups].
  unfold from_session.
  unfold bind at 1. cbn [set_error_wrapper].
  erewrite bind_Return.
  2:{ apply session_request_sync_result; [reflexivity|exact Hhost]. }
  rewrite Hunpack. unfold bind at 1. cbn [lift ret].
  erewrite bind_Return by apply from_session_metadata.
  fold md'.
  rewrite Htys. unfold bind at 1. cbn [lift ret].
  rewrite Hb. unfold bind at 1. cbn [lift ret].
  rewrite Hbid. unfold bind at 1. cbn [lift ret].
  unfold bind at 1. cbn [lift ret].
  rewrite Hw. unfold bind at 1. cbn [lift ret].
  rewrite Hwid. unfold bind at 1. cbn [lift ret].
  unfold bind at 1. cbn [lift ret].
  rewrite Ht. unfold bind at 1. cbn [lift ret].
  rewrite Htid. unfold bind at 1. cbn [lift ret].
  reflexivity.
Qed.

(** ** The codec at every depth *)

(** What is not a wire reference goes through the decoding policy only. *)
Lemma _from_nvim_leaf (self : Nvim) (v : value) (w : world) :
  (forall c s, v <> VExt c s) ->
  _from_nvim self v w =
    (Return (match _decodehook self with
             | Some h => decode_if_bytes h v
             | None => v
             end), w).
Proof.
  intros Hext. unfold _from_nvim.
  destruct v; try (destruct (_decodehook self); reflexivity).
  exfalso. eapply Hext. reflexivity.
Qed.

Ltac decoded_leaf_case H :=
  cbn [walk] in H; rewrite _from_nvim_leaf in H by discriminate;
  inversion H; subst; apply decoded_leaf; discriminate.

(** What [walk] returns for [_from_nvim] is the value decoded at every
    depth. *)
Lemma walk_from_nvim_decoded (self : Nvim) (v v' : value) (w w' : world) :
  walk (_from_nvim self) v w = (Return v', w') -> decoded self v v'.
Proof.
  revert v' w w'.
  induction v as [| | | | |l IH|l IH|d IH|c s|r] using value_ind_deep;
    intros v' w w' H;
    try (decoded_leaf_case H).
  - cbn [walk] in H. apply bind_inv_Return in H as (l' & w1 & Heach & Hret).
    apply ret_inv in Hret as [<- <-]. apply decoded_list.
    revert l' w w1 Heach. induction IH as [|x l Hx _ IHl]; intros l' w w1 Heach.
    + apply ret_inv in Heach as [<- _]. constructor.
    + apply bind_inv_Return in Heach as (x' & w2 & Hwx & Heach).
      apply bind_inv_Return in Heach as (l0' & w3 & Hrest & Hret).
      apply ret_inv in Hret as [<- _].
      constructor; [eapply Hx; exact Hwx|eapply IHl; exact Hrest].
  - cbn [walk] in H. apply bind_inv_Return in H as (l' & w1 & Heach & Hret).
    apply ret_inv in Hret as [<- <-]. apply decoded_tuple.
    revert l' w w1 Heach. induction IH as [|x l Hx _ IHl]; intros l' w w1 Heach.
    + apply ret_inv in Heach as [<- _]. constructor.
    + apply bind_inv_Return in Heach as (x' & w2 & Hwx & Heach).
      apply bind_inv_Return in Heach as (l0' & w3 & Hrest & Hret).
      apply ret_inv in Hret as [<- _].
      constructor; [eapply Hx; exact Hwx|eapply IHl; exact Hrest].
  - cbn [walk] in H. apply bind_inv_Return in H as (d' & w1 & Heach & Hret).
    apply ret_inv in Hret as [<- <-]. apply decoded_dict.
    revert d' w w1 Heach.
    induction IH as [|[k v] d [Hk Hv] _ IHd]; intros d' w w1 Heach.
    + apply ret_inv in Heach as [<- _]. constructor.
    + apply bind_inv_Return in Heach as (k' & w2 & Hwk & Heach).
      apply bind_inv_Return in Heach as (x' & w3 & Hwv & Heach).
      apply bind_inv_Return in Heach as (d0' & w4 & Hrest & Hret).
      apply ret_inv in Hret as [<- _].
      constructor; [split; [eapply Hk; exact Hwk|eapply Hv; exact Hwv]|].
      eapply IHd; exact Hrest.
  - cbn [walk] in H. unfold _from_nvim in H.
    destruct (dict_get (VInt c) (types self)) as [cls|] eqn:Hreg; [|discriminate].
    inversion H; subst. eapply decoded_ext; [exact Hreg|reflexivity..].
Qed.

(** A decoded value holds no wire reference any more. *)
Lemma decoded_no_ext (self : Nvim) (v v' : value) :
  decoded self v v' -> has_ext v' = false.
Proof.
  revert v'.
  induction v as [| | | | |l IH|l IH|d IH|c s|r] using value_ind_deep;
    intros v' H; inversion H; subst;
    try (destruct (_decodehook self); reflexivity);
    try match goal with
        | Hne : forall l, ?x <> ?f l |- _ => exfalso; eapply Hne; reflexivity
        end.
  - cbn [has_ext]. clear H.
    match goal with HF : Forall2 _ l _ |- _ => induction HF as [|x x' l l' Hd _ IHl] end;
      [reflexivity|].
    apply Forall_cons in IH as [Hx IH].
    cbn [existsb]. rewrite (Hx _ Hd), (IHl IH). reflexivity.
  - cbn [has_ext]. clear H.
    match goal with HF : Forall2 _ l _ |- _ => induction HF as [|x x' l l' Hd _ IHl] end;
      [reflexivity|].
    apply Forall_cons in IH as [Hx IH].
    cbn [existsb]. rewrite (Hx _ Hd), (IHl IH). reflexivity.
  - cbn [has_ext]. clear H.
    match goal with HF : Forall2 _ d _ |- _ =>
      induction HF as [|[k v] [k' v'] d d' [Hdk Hdv] _ IHd] end;
      [reflexivity|].
    apply Forall_cons in IH as [[Hk Hv] IH].
    cbn [existsb fst snd] in *. rewrite (Hk _ Hdk), (Hv _ Hdv), (IHd IH). reflexivity.
  - exfalso. match goal with Hne : forall c s, _ <> VExt c s |- _ => eapply Hne; reflexivity end.
Qed.

(** The decoding of a value whose wire references are all registered comes
    back with a value. *)
Lemma walk_from_nvim_total (self : Nvim) (v : value) (w : world) :
  registered self v = true ->
  exists v' w', walk (_from_nvim self) v w = (Return v', w').
Proof.
  revert w.
  induction v as [| | | | |l IH|l IH|d IH|c s|r] using value_ind_deep;
    intros w Hreg;
    try (cbn [walk]; rewrite _from_nvim_leaf by discriminate; eauto).
  - cbn [walk registered] in *.
    enough (exists l' w', (fix each (l : list value) : M (list value) :=
               match l with
               | [] => ret []
               | o :: l0 =>
                   let! o' := walk (_from_nvim self) o in
                   let! l0' := each l0 in
                   ret (o' :: l0')
               end) l w = (Return l', w')) as (l' & w' & Heach).
    { erewrite bind_Return by exact Heach. eauto. }
    revert w. induction IH as [|x l Hx _ IHl]; intros w; [cbn; eauto|].
    cbn [forallb] in Hreg. apply andb_true_iff in Hreg as [Hrx Hrl].
    destruct (Hx w Hrx) as (x' & w1 & Hwx).
    destruct (IHl Hrl w1) as (l' & w2 & Hwl).
    erewrite bind_Return by exact Hwx.
    erewrite bind_Return by exact Hwl. eauto.
  - cbn [walk registered] in *.
    enough (exists l' w', (fix each (l : list value) : M (list value) :=
               match l with
               | [] => ret []
               | o :: l0 =>
                   let! o' := walk (_from_nvim self) o in
                   let! l0' := each l0 in
                   ret (o' :: l0')
               end) l w = (Return l', w')) as (l' & w' & Heach).
    { erewrite bind_Return by exact Heach. eauto. }
    revert w. induction IH as [|x l Hx _ IHl]; intros w; [cbn; eauto|].
    cbn [forallb] in Hreg. apply andb_true_iff in Hreg as [Hrx Hrl].
    destruct (Hx w Hrx) as (x' & w1 & Hwx).
    destruct (IHl Hrl w1) as (l' & w2 & Hwl).
    erewrite bind_Return by exact Hwx.
    erewrite bind_Return by exact Hwl. eauto.
  - cbn [walk registered] in *.
    enough (exists d' w', (fix each (d : list (value * value)) : M (list (value * value)) :=
               match d with
               | [] => ret []
               | (k, v) :: d0 =>
                   let! k' := walk (_from_nvim self) k in
                   let! v' := walk (_from_nvim self) v in
                   let! d0' := each d0 in
                   ret ((k', v') :: d0')
               end) d w = (Return d', w')) as (d' & w' & Heach).
    { erewrite bind_Return by exact Heach. eauto. }
    revert w. induction IH as [|[k v] d [Hk Hv] _ IHd]; intros w; [cbn; eauto|].
    cbn [forallb fst snd] in Hreg.
    apply andb_true_iff in Hreg as [Hrkv Hrd].
    apply andb_true_iff in Hrkv as [Hrk Hrv].
    destruct (Hk w Hrk) as (k' & w1 & Hwk).
    destruct (Hv w1 Hrv) as (v' & w2 & Hwv).
    destruct (IHd Hrd w2) as (d' & w3 & Hwd).
    erewrite bind_Return by exact Hwk.
    erewrite bind_Return by exact Hwv.
    erewrite bind_Return by exact Hwd. eauto.
  - cbn [walk registered] in *. unfold _from_nvim.
    destruct (dict_get (VInt c) (types self)); [|discriminate].
    cbn. eauto.
Qed.

(** A walk of [_from_nvim] allocates and does nothing else to the world. *)
Lemma same_session_refl (w : world) : same_session w w.
Proof. repeat split. Qed.

Lemma same_session_trans (w1 w2 w3 : world) :
  same_session w1 w2 -> same_session w2 w3 -> same_session w1 w3.
Proof.
  intros (Ho & Hh & He) (Ho' & Hh' & He').
  repeat split; congruence.
Qed.

Lemma _from_nvim_same_session (self : Nvim) (v : value) (w : world) :
  same_session w (snd (_from_nvim self v w)).
Proof.
  unfold _from_nvim.
  destruct v; try (destruct (_decodehook self); apply same_session_refl).
  destruct (dict_get (VInt code) (types self)); repeat split.
Qed.

Lemma bind_same_session {A B} (m : M A) (k : A -> M B) (w : world) :
  same_session w (snd (m w)) ->
  (forall a w1, same_session w1 (snd (k a w1))) ->
  same_session w (snd (bind m k w)).
Proof.
  intros Hm Hk. unfold bind. destruct (m w) as [[a|e|] w1]; cbn [snd] in *;
    [|exact Hm..].
  eapply same_session_trans; [exact Hm|apply Hk].
Qed.

Lemma walk_from_nvim_same_session (self : Nvim) (v : value) (w : world) :
  same_session w (snd (walk (_from_nvim self) v w)).
Proof.
  revert w.
  induction v as [| | | | |l IH|l IH|d IH|c s|r] using value_ind_deep;
    intros w; try apply _from_nvim_same_session.
  - cbn [walk]. apply bind_same_session; [|intros; apply same_session_refl].
    revert w. induction IH as [|x l Hx _ IHl]; intros w; [apply same_session_refl|].
    apply bind_same_session; [apply Hx|]. intros x' w1.
    apply bind_same_session; [apply IHl|]. intros; apply same_session_refl.
  - cbn [walk]. apply bind_same_session; [|intros; apply same_session_refl].
    revert w. induction IH as [|x l Hx _ IHl]; intros w; [apply same_session_refl|].
    apply bind_same_session; [apply Hx|]. intros x' w1.
    apply bind_same_session; [apply IHl|]. intros; apply same_session_refl.
  - cbn [walk]. apply bind_same_session; [|intros; apply same_session_refl].
    revert w. induction IH as [|[k v] d [Hk Hv] _ IHd]; intros w;
      [apply same_session_refl|].
    apply bind_same_session; [apply Hk|]. intros k' w1.
    apply bind_same_session; [apply Hv|]. intros v' w2.
    apply bind_same_session; [apply IHd|]. intros; apply same_session_refl.
Qed.

(** C5. The codec is applied at every depth of what crosses the wire, for
    the values it translates (outbound, proxies of the tags [ExtType] takes;
    inbound, what msgpack delivers, with wire references of registered
    tags).  Outbound, [request] hands the session
    its arguments with every proxy, however deeply nested in sequences and
    mappings, replaced by its wire reference, and returns the host's result
    with every wire reference, however deeply nested, replaced by a proxy.
    Inbound, the wrapper [run_loop] installs for requests invokes the handler
    with the arguments decoded at every depth and returns the handler's
    value encoded at every depth, and the wrapper for notifications invokes
    the handler with the arguments decoded at every depth. *)
Theorem codec_applied_at_every_depth (self : Nvim) :
  (forall name args kwargs w res,
     forallb encodable args = true ->
     (forall k, is_Some (kwargs !! k) -> k = "async") ->
     async_option kwargs = false ->
     host w (outbox w ++ [Request name (map to_wire args)]) = Result res ->
     decodable self res = true ->
     Forall (fun a => has_remote a = false) (map to_wire args) /\
     exists v w',
       request self name args kwargs w = (Return v, w') /\
       outbox w' = outbox w ++ [Request name (map to_wire args)] /\
       decoded self res v /\
       has_ext v = false) /\
  (forall request_cb name args w,
     decodable self args = true ->
     is_text name = true ->
     decodable self name = true ->
     exists args' w1,
       walk (_from_nvim self) args w = (Return args', w1) /\
       decoded self args args' /\
       has_ext args' = false /\
       forall result w2,
         request_cb [name; args'] ∅ w1 = (Ok result, w2) ->
         encodable result = true ->
         filter_request_cb self request_cb name args w =
           (Return (to_wire result), w2) /\
         has_remote (to_wire result) = false) /\
  (forall notification_cb name args w,
     decodable self args = true ->
     is_text name = true ->
     decodable self name = true ->
     exists args' w1,
       walk (_from_nvim self) args w = (Return args', w1) /\
       decoded self args args' /\
       has_ext args' = false /\
       forall result w2,
         notification_cb [name; args'] ∅ w1 = (Ok result, w2) ->
         filter_notification_cb self notification_cb name args w = (Return VNone, w2)) /\
  (forall request_cb notification_cb setup_cb inbound,
     run_loop self request_cb notification_cb setup_cb inbound =
     session_run (filter_request_cb self request_cb)
       (filter_notification_cb self notification_cb) setup_cb inbound).
Proof.
  assert (Hname : forall name w, is_text name = true ->
            decodable self name = true ->
            _from_nvim self name w = (Return name, w)).
  { intros name w Ht Hd. rewrite _from_nvim_leaf by (intros c s ->; discriminate).
    unfold decodable in Hd. apply andb_true_iff in Hd as [_ Hd].
    destruct (_decodehook self); [|reflexivity].
    destruct name; try discriminate; reflexivity. }
  assert (Hregd : forall v, decodable self v = true -> registered self v = true).
  { intros v Hd. unfold decodable in Hd.
    apply andb_true_iff in Hd as [Hd _]. apply andb_true_iff in Hd as [_ Hd].
    exact Hd. }
  repeat apply conj.
  - intros name args kwargs w res Henc _ Hsync Hres Hdec. apply Hregd in Hdec as Hreg.
    split.
    + apply Forall_forall. intros a Ha.
      apply list_elem_of_fmap in Ha as (a0 & -> & _).
      apply has_remote_to_wire.
    + rewrite (request_sync_result self name args kwargs w res Henc Hsync Hres).
      match goal with
      | |- context [walk (_from_nvim self) res ?w0] =>
          destruct (walk_from_nvim_total self res w0 Hreg) as (v & w' & Hwalk);
          pose proof (walk_from_nvim_same_session self res w0) as (Hout & _ & _)
      end.
      rewrite Hwalk in Hout. cbn [snd outbox] in Hout.
      exists v, w'. split; [exact Hwalk|]. split; [exact Hout|].
      pose proof (walk_from_nvim_decoded self res v _ w' Hwalk) as Hdec'.
      split; [exact Hdec'|]. eapply decoded_no_ext; exact Hdec'.
  - intros request_cb name args w Hda Ht Hdn. apply Hregd in Hda as Hreg.
    destruct (walk_from_nvim_total self args w Hreg) as (args' & w1 & Hwalk).
    pose proof (walk_from_nvim_decoded self args args' w w1 Hwalk) as Hdec.
    exists args', w1.
    split; [exact Hwalk|]. split; [exact Hdec|].
    split; [eapply decoded_no_ext; exact Hdec|].
    intros result w2 Hcb Henc. split; [|apply has_remote_to_wire].
    unfold filter_request_cb.
    erewrite bind_Return by exact Hwalk.
    erewrite bind_Return by (apply Hname; [exact Ht|exact Hdn]).
    erewrite bind_Return by (unfold call_py; rewrite Hcb; reflexivity).
    apply walk_to_nvim_encodable. exact Henc.
  - intros notification_cb name args w Hda Ht Hdn. apply Hregd in Hda as Hreg.
    destruct (walk_from_nvim_total self args w Hreg) as (args' & w1 & Hwalk).
    pose proof (walk_from_nvim_decoded self args args' w w1 Hwalk) as Hdec.
    exists args', w1.
    split; [exact Hwalk|]. split; [exact Hdec|].
    split; [eapply decoded_no_ext; exact Hdec|].
    intros result w2 Hcb.
    unfold filter_notification_cb.
    erewrite bind_Return by (apply Hname; [exact Ht|exact Hdn]).
    erewrite bind_Return by exact Hwalk.
    erewrite bind_Return by (unfold call_py; rewrite Hcb; reflexivity).
    reflexivity.
  - reflexivity.
Qed.

(** ** The session's [error_wrapper] *)

Lemma keeps_ret {A} (a : A) : keeps_wrapper (ret a).
Proof. intros w. reflexivity. Qed.

Lemma keeps_raise {A} (e : exn) : keeps_wrapper (@raise A e).
Proof. intros w. reflexivity. Qed.

Lemma keeps_lift {A} (r : result A) : keeps_wrapper (lift r).
Proof. destruct r; intros w; reflexivity. Qed.

Lemma keeps_send (m : out_msg) : keeps_wrapper (send m).
Proof. intros w. reflexivity. Qed.

Lemma keeps_fresh_oid : keeps_wrapper fresh_oid.
Proof. intros w. reflexivity. Qed.

Lemma keeps_bind {A B} (m : M A) (k : A -> M B) :
  keeps_wrapper m -> (forall a, keeps_wrapper (k a)) -> keeps_wrapper (bind m k).
Proof.
  intros Hm Hk w. unfold bind. specialize (Hm w).
  destruct (m w) as [[a|e|] w1]; cbn [snd] in *; [|exact Hm..].
  rewrite Hk. exact Hm.
Qed.

Lemma keeps_session_request (name : value) (args : list value)
    (kwargs : gmap string value) :
  keeps_wrapper (session_request name args kwargs).
Proof.
  intros w. unfold session_request.
  destruct (async_option kwargs); unfold bind; cbn [send ret snd];
    [reflexivity|].
  cbn [outbox host error_wrapper].
  destruct (host w (outbox w ++ [Request name args])); try reflexivity.
  destruct (error_wrapper w e); reflexivity.
Qed.

Create HintDb keeps.
#[local] Hint Resolve keeps_ret keeps_raise keeps_lift keeps_send keeps_fresh_oid
  keeps_session_request : keeps.

(** Whatever the host answers, a session [from_session] has run on wraps
    host errors by [lambda e: NvimError(e[1])]. *)
Lemma from_session_installs_error_wrapper (w : world) :
  error_wrapper (snd (from_session w)) = nvim_error_wrapper.
Proof.
  unfold from_session. unfold bind at 1. cbn [set_error_wrapper].
  match goal with
  | |- error_wrapper (snd (?m ?w0)) = _ =>
      enough (Hk : keeps_wrapper m) by (rewrite Hk; reflexivity)
  end.
  apply keeps_bind; [auto with keeps|]. intros r.
  apply keeps_bind; [auto with keeps|]. intros [cid md].
  apply keeps_bind.
  { destruct IS_PYTHON3; [|auto with keeps].
    intros w0. unfold DecodeHook_walk. rewrite walk_ret. reflexivity. }
  intros md'.
  repeat (apply keeps_bind; [auto with keeps|]; intros ?).
  auto with keeps.
Qed.

(** ** More on the codec *)

(** X1. [ExtType] takes the tags from 0 to 127 only.  A request that has
    among its arguments a proxy of any other tag, behind arguments the
    encoding goes through, raises the [ValueError] of [ExtType], whatever
    the options, the host and what follows the proxy; nothing reaches the
    session: the world is as it was. *)
Theorem request_invalid_tag_raises (self : Nvim) (name : value)
    (args1 args2 : list value) (r : Remote) (kwargs : gmap string value)
    (w : world) :
  forallb encodable args1 = true ->
  fst (code_data r) < 0 \/ 127 < fst (code_data r) ->
  request self name (args1 ++ VRemote r :: args2) kwargs w =
    (Raise (mkExn ValueError [lit "code must be 0~127"]), w).
Proof.
  intros Henc Htag.
  assert (Hbad : encodable (VRemote r) = false).
  { cbn [encodable]. apply andb_false_iff.
    destruct Htag as [Hlo|Hhi]; [left; apply Z.leb_gt|right; apply Z.leb_gt];
      assumption. }
  unfold request.
  erewrite bind_Raise; [reflexivity|].
  cbn [walk]. erewrite bind_Raise; [reflexivity|].
  induction args1 as [|a args1 IH]; cbn [app].
  - erewrite bind_Raise; [reflexivity|].
    cbn [walk]. rewrite _to_nvim_invalid_tag by exact Hbad. reflexivity.
  - cbn [forallb] in Henc. apply andb_true_iff in Henc as [Ha Hrest].
    erewrite bind_Return by (apply walk_to_nvim_encodable; exact Ha).
    erewrite bind_Raise by (apply IH; exact Hrest).
    reflexivity.
Qed.

(** X2. Decoding a wire reference of a registered tag (a wire reference
    has a tag from 0 to 127) and encoding the proxy again gives the wire
    reference back, tag and payload untouched; the proxy in between is of
    the registered class and bound to the decoding instance. *)
Theorem decode_then_encode (self : Nvim) (code : Z) (data : string)
    (cls : RemoteClass) (w : world) :
  dict_get (VInt code) (types self) = Some cls ->
  0 <= code <= 127 ->
  exists r w',
    _from_nvim self (VExt code data) w = (Return (VRemote r), w') /\
    rcls r = cls /\ rsession r = nv_oid self /\
    _to_nvim self (VRemote r) = Ok (VExt code data).
Proof.
  intros Hreg Htag. eexists _, _.
  split; [apply _from_nvim_registered; exact Hreg|].
  split; [reflexivity|]. split; [reflexivity|].
  unfold _to_nvim. cbn [code_data fst snd]. apply ExtType_valid. exact Htag.
Qed.

(** X3. [_from_nvim] never hands a wire reference back: what it returns for
    any object is not an [ExtType], and when the object was one, it is a
    proxy carrying its tag and payload. *)
Theorem _from_nvim_returns_no_ext (self : Nvim) (obj v : value) (w w' : world) :
  _from_nvim self obj w = (Return v, w') ->
  (forall c d, v <> VExt c d) /\
  (forall c d, obj = VExt c d -> exists r, v = VRemote r /\ code_data r = (c, d)).
Proof.
  intros H. destruct obj;
    try (rewrite _from_nvim_leaf in H by discriminate; inversion H; subst;
         split; [destruct (_decodehook self); discriminate|discriminate]).
  unfold _from_nvim in H.
  destruct (dict_get (VInt code) (types self)) as [cls|]; [|discriminate].
  inversion H; subst. split; [discriminate|].
  intros c d Heq. inversion Heq; subst. eexists. split; reflexivity.
Qed.

(** X4. What the host sent can be sent back as it came: on an instance
    without decoding policy, a value made of what msgpack delivers (no tuple,
    no proxy, wire references of the tags [ExtType] takes), once decoded at
    every depth, is encoded at every depth, without an error and in whatever
    world, to the very value the host sent. *)
Theorem decode_encode_wire_value (self : Nvim) (res v : value) (w w' w0 : world) :
  _decodehook self = None ->
  wire_value res = true ->
  walk (_from_nvim self) res w = (Return v, w') ->
  walk (fun o => lift (_to_nvim self o)) v w0 = (Return res, w0).
Proof.
  intros Hhook. revert v w w' w0.
  induction res as [| | | | |l IH|l IH|d IH|c s|r] using value_ind_deep;
    intros v w w' w0 Hwire H;
    try (cbn [walk] in H; rewrite _from_nvim_leaf in H by discriminate;
         rewrite Hhook in H; inversion H; reflexivity);
    try discriminate.
  - cbn [walk wire_value] in *.
    apply bind_inv_Return in H as (l' & w1 & Heach & Hret).
    apply ret_inv in Hret as [<- _]. cbn [walk].
    erewrite bind_Return; [reflexivity|].
    revert l' w w1 w0 Heach Hwire.
    induction IH as [|x l Hx _ IHl]; intros l' w w1 w0 Heach Hwire.
    + apply ret_inv in Heach as [<- _]. reflexivity.
    + apply bind_inv_Return in Heach as (x' & w2 & Hwx & Heach).
      apply bind_inv_Return in Heach as (l0' & w3 & Hrest & Hret).
      apply ret_inv in Hret as [<- _].
      cbn [forallb] in Hwire. apply andb_true_iff in Hwire as [Hwx' Hwl].
      erewrite bind_Return by (eapply Hx; eassumption).
      erewrite bind_Return by (eapply IHl; eassumption).
      reflexivity.
  - cbn [walk wire_value] in *.
    apply bind_inv_Return in H as (d' & w1 & Heach & Hret).
    apply ret_inv in Hret as [<- _]. cbn [walk].
    erewrite bind_Return; [reflexivity|].
    revert d' w w1 w0 Heach Hwire.
    induction IH as [|[k x] d [Hk Hv] _ IHd]; intros d' w w1 w0 Heach Hwire.
    + apply ret_inv in Heach as [<- _]. reflexivity.
    + apply bind_inv_Return in Heach as (k' & w2 & Hwk & Heach).
      apply bind_inv_Return in Heach as (x' & w3 & Hwv & Heach).
      apply bind_inv_Return in Heach as (d0' & w4 & Hrest & Hret).
      apply ret_inv in Hret as [<- _].
      cbn [forallb fst snd] in Hwire.
      apply andb_true_iff in Hwire as [Hkv Hwd].
      apply andb_true_iff in Hkv as [Hpk Hwv'].
      assert (Hwk' : wire_value k = true)
        by (destruct k; try discriminate; reflexivity).
      cbn [fst snd] in Hk, Hv.
      erewrite bind_Return by (eapply Hk; eassumption).
      erewrite bind_Return by (eapply Hv; eassumption).
      erewrite bind_Return by (eapply IHd; eassumption).
      reflexivity.
  - cbn [walk wire_value] in *. unfold _from_nvim in H.
    destruct (dict_get (VInt c) (types self)); [|discriminate].
    inversion H. cbn [walk]. unfold _to_nvim, ExtType. cbn [code_data fst snd].
    rewrite Hwire. reflexivity.
Qed.

(** X5. The instance [with_decodehook] makes is a new object that keeps the
    channel identifier, the metadata and the registry of the original and
    has the given hook as its decoding policy; nothing is sent.  Sharing the
    registry, it decodes every wire reference the way the original does: the
    same failure, or a proxy of the same class, tag and payload, bound to the
    new instance. *)
Theorem with_decodehook_decodes (self : Nvim) (hook : DecodeHook) (w : world) :
  exists nv' w',
    with_decodehook self hook w = (Return nv', w') /\
    nv_oid nv' = next_oid w /\
    same_session w w' /\
    (channel_id nv' = channel_id self /\ metadata nv' = metadata self /\
     types nv' = types self /\ _decodehook nv' = Some hook) /\
    (forall c d w1 r w2,
       _from_nvim self (VExt c d) w1 = (Return (VRemote r), w2) ->
       exists r',
         _from_nvim nv' (VExt c d) w1 = (Return (VRemote r'), w2) /\
         rcls r' = rcls r /\ code_data r' = code_data r /\
         rsession r' = nv_oid nv') /\
    (forall c d w1 e w2,
       _from_nvim self (VExt c d) w1 = (Raise e, w2) ->
       _from_nvim nv' (VExt c d) w1 = (Raise e, w2)).
Proof.
  eexists _, _. split; [reflexivity|]. split; [reflexivity|].
  split; [repeat split|].
  split; [repeat split|].
  split.
  - intros c d w1 r w2 H. unfold _from_nvim in *. cbn [types nv_oid].
    destruct (dict_get (VInt c) (types self)); [|discriminate].
    inversion H; subst. eexists. split; [reflexivity|]. repeat split.
  - intros c d w1 e w2 H. unfold _from_nvim in *. cbn [types].
    destruct (dict_get (VInt c) (types self)); [discriminate|exact H].
Qed.

(** ** More on [request] *)

(** A walk of [_from_nvim] keeps every relation between worlds that is
    reflexive, transitive and kept by [_from_nvim]. *)
Lemma walk_from_nvim_preserves (self : Nvim) (R : world -> world -> Prop) :
  (forall w, R w w) ->
  (forall w1 w2 w3, R w1 w2 -> R w2 w3 -> R w1 w3) ->
  (forall v w, R w (snd (_from_nvim self v w))) ->
  forall v w, R w (snd (walk (_from_nvim self) v w)).
Proof.
  intros Hrefl Htrans Hstep.
  assert (Hbind : forall A B (m : M A) (k : A -> M B) w,
             R w (snd (m w)) -> (forall a w1, R w1 (snd (k a w1))) ->
             R w (snd (bind m k w))).
  { intros A B m k w Hm Hk. unfold bind.
    destruct (m w) as [[a|e|] w1]; cbn [snd] in *; [|exact Hm..].
    eapply Htrans; [exact Hm|apply Hk]. }
  induction v as [| | | | |l IH|l IH|d IH|c s|r] using value_ind_deep;
    intros w; try apply Hstep.
  - cbn [walk]. apply Hbind; [|intros; apply Hrefl].
    revert w. induction IH as [|x l Hx _ IHl]; intros w; [apply Hrefl|].
    apply Hbind; [apply Hx|]. intros x' w1.
    apply Hbind; [apply IHl|]. intros; apply Hrefl.
  - cbn [walk]. apply Hbind; [|intros; apply Hrefl].
    revert w. induction IH as [|x l Hx _ IHl]; intros w; [apply Hrefl|].
    apply Hbind; [apply Hx|]. intros x' w1.
    apply Hbind; [apply IHl|]. intros; apply Hrefl.
  - cbn [walk]. apply Hbind; [|intros; apply Hrefl].
    revert w. induction IH as [|[k v] d [Hk Hv] _ IHd]; intros w; [apply Hrefl|].
    apply Hbind; [apply Hk|]. intros k' w1.
    apply Hbind; [apply Hv|]. intros v' w2.
    apply Hbind; [apply IHd|]. intros; apply Hrefl.
Qed.

(** Decoding allocates, it never gives an identity back. *)
Lemma walk_from_nvim_next_oid (self : Nvim) (v : value) (w : world) :
  (next_oid w <= next_oid (snd (walk (_from_nvim self) v w)))%nat.
Proof.
  apply (walk_from_nvim_preserves self (fun w w' => (next_oid w <= next_oid w')%nat));
    [lia|lia|].
  intros v0 w0. unfold _from_nvim.
  destruct v0; try (destruct (_decodehook self); cbn; lia).
  destruct (dict_get (VInt code) (types self)); cbn; lia.
Qed.

(** What the session and the decoding of the result do to the world once
    the arguments are encoded: one message goes out, objects may be
    allocated, the host and the [error_wrapper] stay. *)
Lemma request_sent_world (self : Nvim) (name : value) (sent : list value)
    (kwargs : gmap string value) (w : world) :
  let w' := snd (bind (session_request name sent kwargs) (walk (_from_nvim self)) w) in
  outbox w' =
    outbox w ++ [if async_option kwargs then Notification name sent
                 else Request name sent] /\
  host w' = host w /\
  error_wrapper w' = error_wrapper w /\
  (next_oid w <= next_oid w')%nat.
Proof.
  cbn zeta. unfold session_request.
  destruct (async_option kwargs).
  - unfold bind at 1 3 5 7. unfold bind at 1 2 3 4. cbn [send ret].
    rewrite _from_nvim_None. cbn [snd outbox host error_wrapper next_oid].
    split; [reflexivity|]. split; [reflexivity|]. split; [reflexivity|lia].
  - unfold bind at 1 3 5 7. unfold bind at 1 2 3 4.
    cbn [send outbox host error_wrapper next_oid].
    destruct (host w (outbox w ++ [Request name sent])) as [res|e| |].
    + match goal with
      | |- context [walk (_from_nvim self) res ?w0] =>
          destruct (walk_from_nvim_same_session self res w0) as (Ho & Hh & He);
          pose proof (walk_from_nvim_next_oid self res w0) as Hn
      end.
      cbn [outbox host error_wrapper next_oid] in *.
      split; [exact Ho|]. split; [exact Hh|]. split; [exact He|exact Hn].
    + destruct (error_wrapper w e); cbn [snd outbox host error_wrapper next_oid];
        (split; [reflexivity|]; split; [reflexivity|]; split; [reflexivity|lia]).
    + cbn [snd outbox host error_wrapper next_oid].
      split; [reflexivity|]. split; [reflexivity|]. split; [reflexivity|lia].
    + cbn [snd outbox host error_wrapper next_oid].
      split; [reflexivity|]. split; [reflexivity|]. split; [reflexivity|lia].
Qed.

(** [request] either stops at the encoding of its arguments, the world as
    it was, or hands the session the arguments it made of them. *)
Lemma request_encoding (self : Nvim) (name : value) (args : list value)
    (kwargs : gmap string value) (w : world) :
  (exists e, request self name args kwargs w = (Raise e, w)) \/
  (exists sent,
     request self name args kwargs w =
     bind (session_request name sent kwargs) (walk (_from_nvim self)) w).
Proof.
  unfold request.
  destruct (walk_to_nvim_pure self (VTuple args) w) as [[a|e] Hr]; cbn [lift] in Hr.
  - right. destruct (walk_tuple_list _ _ _ _ _ Hr) as [l' ->]. exists l'.
    erewrite bind_Return by exact Hr. reflexivity.
  - left. exists e. erewrite bind_Raise by exact Hr. reflexivity.
Qed.

(** What [request] leaves in the outbox. *)
Lemma request_outbox (self : Nvim) (name : value) (args : list value)
    (kwargs : gmap string value) (w : world) :
  forallb encodable args = true ->
  outbox (snd (request self name args kwargs w)) =
  outbox w ++ [request_msg name args kwargs].
Proof.
  intros Henc. rewrite request_eq by exact Henc.
  destruct (request_sent_world self name (map to_wire args) kwargs w) as (Ho & _).
  rewrite Ho. unfold request_msg. destruct (async_option kwargs); reflexivity.
Qed.

(** The blocking path when the host never answers. *)
Lemma request_sync_silent (self : Nvim) (name : value)
    (args : list value) (kwargs : gmap string value) (w : world) :
  forallb encodable args = true ->
  async_option kwargs = false ->
  host w (outbox w ++ [Request name (map to_wire args)]) = Silent ->
  request self name args kwargs w =
    (Hang,
     mkWorld (next_oid w)
       (outbox w ++ [Request name (map to_wire args)])
       (host w) (error_wrapper w)).
Proof.
  intros Henc Hsync Hsilent. rewrite request_eq by exact Henc.
  unfold session_request. rewrite Hsync.
  unfold bind at 1. unfold bind at 1. cbn [send outbox host error_wrapper next_oid].
  rewrite Hsilent. reflexivity.
Qed.

(** X6. A call of [request] whose arguments the encoding goes through, with
    no keyword but "async", hands the session exactly one message, whatever
    comes of it (a result, an exception, no answer): the request or, with
    the asynchronous option, the notification of the given name with the
    arguments encoded at every depth.  Any call of [request] hands the session at most one message,
    changes neither the host nor the [error_wrapper], and gives no object
    identity back. *)
Theorem request_sends_one_message (self : Nvim) (name : value)
    (args : list value) (kwargs : gmap string value) (w : world) :
  (forallb encodable args = true ->
   (forall k, is_Some (kwargs !! k) -> k = "async") ->
   outbox (snd (request self name args kwargs w)) =
     outbox w ++ [request_msg name args kwargs]) /\
  (exists sent,
     outbox (snd (request self name args kwargs w)) = outbox w ++ sent /\
     (length sent <= 1)%nat) /\
  host (snd (request self name args kwargs w)) = host w /\
  error_wrapper (snd (request self name args kwargs w)) = error_wrapper w /\
  (next_oid w <= next_oid (snd (request self name args kwargs w)))%nat.
Proof.
  split; [intros Henc _; apply request_outbox; exact Henc|].
  destruct (request_encoding self name args kwargs w) as [[e Hreq]|[sent Hreq]];
    rewrite Hreq.
  - cbn [snd]. split; [exists []; rewrite app_nil_r; split; [reflexivity|cbn; lia]|].
    split; [reflexivity|]. split; [reflexivity|lia].
  - destruct (request_sent_world self name sent kwargs w) as (Ho & Hh & He & Hn).
    split; [eexists; split; [exact Ho|cbn; lia]|].
    split; [exact Hh|]. split; [exact He|exact Hn].
Qed.

(** The first wire reference of an unregistered tag stops the decoding. *)
Lemma walk_from_nvim_unregistered (self : Nvim) (v : value) (w : world) :
  registered self v = false ->
  exists c w',
    walk (_from_nvim self) v w = (Raise (mkExn KeyError [VInt c]), w') /\
    dict_get (VInt c) (types self) = None.
Proof.
  revert w.
  induction v as [| | | | |l IH|l IH|d IH|c s|r] using value_ind_deep;
    intros w Hreg; try discriminate.
  - cbn [walk registered] in *.
    enough (exists c w', (fix each (l : list value) : M (list value) :=
               match l with
               | [] => ret []
               | o :: l0 =>
                   let! o' := walk (_from_nvim self) o in
                   let! l0' := each l0 in
                   ret (o' :: l0')
               end) l w = (Raise (mkExn KeyError [VInt c]), w') /\
               dict_get (VInt c) (types self) = None) as (c & w' & Heach & Hc).
    { exists c, w'. split; [|exact Hc]. erewrite bind_Raise by exact Heach. reflexivity. }
    revert w. induction IH as [|x l Hx _ IHl]; intros w; [discriminate|].
    cbn [forallb] in Hreg. destruct (registered self x) eqn:Hrx.
    + destruct (walk_from_nvim_total self x w Hrx) as (x' & w1 & Hwx).
      destruct (IHl Hreg w1) as (c & w' & Hl & Hc).
      exists c, w'. split; [|exact Hc].
      erewrite bind_Return by exact Hwx.
      erewrite bind_Raise by exact Hl. reflexivity.
    + destruct (Hx w eq_refl) as (c & w' & Hwx & Hc).
      exists c, w'. split; [|exact Hc].
      erewrite bind_Raise by exact Hwx. reflexivity.
  - cbn [walk registered] in *.
    enough (exists c w', (fix each (l : list value) : M (list value) :=
               match l with
               | [] => ret []
               | o :: l0 =>
                   let! o' := walk (_from_nvim self) o in
                   let! l0' := each l0 in
                   ret (o' :: l0')
               end) l w = (Raise (mkExn KeyError [VInt c]), w') /\
               dict_get (VInt c) (types self) = None) as (c & w' & Heach & Hc).
    { exists c, w'. split; [|exact Hc]. erewrite bind_Raise by exact Heach. reflexivity. }
    revert w. induction IH as [|x l Hx _ IHl]; intros w; [discriminate|].
    cbn [forallb] in Hreg. destruct (registered self x) eqn:Hrx.
    + destruct (walk_from_nvim_total self x w Hrx) as (x' & w1 & Hwx).
      destruct (IHl Hreg w1) as (c & w' & Hl & Hc).
      exists c, w'. split; [|exact Hc].
      erewrite bind_Return by exact Hwx.
      erewrite bind_Raise by exact Hl. reflexivity.
    + destruct (Hx w eq_refl) as (c & w' & Hwx & Hc).
      exists c, w'. split; [|exact Hc].
      erewrite bind_Raise by exact Hwx. reflexivity.
  - cbn [walk registered] in *.
    enough (exists c w', (fix each (d : list (value * value)) : M (list (value * value)) :=
               match d with
               | [] => ret []
               | (k, v) :: d0 =>
                   let! k' := walk (_from_nvim self) k in
                   let! v' := walk (_from_nvim self) v in
                   let! d0' := each d0 in
                   ret ((k', v') :: d0')
               end) d w = (Raise (mkExn KeyError [VInt c]), w') /\
               dict_get (VInt c) (types self) = None) as (c & w' & Heach & Hc).
    { exists c, w'. split; [|exact Hc]. erewrite bind_Raise by exact Heach. reflexivity. }
    revert w. induction IH as [|[k v] d [Hk Hv] _ IHd]; intros w; [discriminate|].
    cbn [forallb fst snd] in Hreg.
    destruct (registered self k) eqn:Hrk.
    + destruct (walk_from_nvim_total self k w Hrk) as (k' & w1 & Hwk).
      erewrite bind_Return by exact Hwk.
      destruct (registered self v) eqn:Hrv.
      * destruct (walk_from_nvim_total self v w1 Hrv) as (v' & w2 & Hwv).
        destruct (IHd Hreg w2) as (c & w' & Hd & Hc).
        exists c, w'. split; [|exact Hc].
        erewrite bind_Return by exact Hwv.
        erewrite bind_Raise by exact Hd. reflexivity.
      * destruct (Hv w1 Hrv) as (c & w' & Hwv & Hc).
        exists c, w'. split; [|exact Hc].
        erewrite bind_Raise by exact Hwv. reflexivity.
    + destruct (Hk w Hrk) as (c & w' & Hwk & Hc).
      exists c, w'. split; [|exact Hc].
      erewrite bind_Raise by exact Hwk. reflexivity.
  - cbn [walk registered] in *. unfold _from_nvim.
    destruct (dict_get (VInt c) (types self)) eqn:Hc; [discriminate|].
    exists c, w. split; reflexivity || exact Hc.
Qed.

(** X7. When the result the host sends for a blocking request, its
    arguments encoded and sent, holds, at any depth, a wire reference of a
    tag the registry does not have, [request] raises [KeyError] with such a
    tag; the request has been sent by then. *)
Theorem request_undecodable_result (self : Nvim) (name : value)
    (args : list value) (kwargs : gmap string value) (w : world) (res : value) :
  forallb encodable args = true ->
  async_option kwargs = false ->
  host w (outbox w ++ [Request name (map to_wire args)]) = Result res ->
  registered self res = false ->
  exists c w',
    request self name args kwargs w = (Raise (mkExn KeyError [VInt c]), w') /\
    dict_get (VInt c) (types self) = None /\
    outbox w' = outbox w ++ [Request name (map to_wire args)].
Proof.
  intros Henc Hsync Hres Hreg.
  pose proof (request_outbox self name args kwargs w Henc) as Hout.
  unfold request_msg in Hout. rewrite Hsync in Hout.
  rewrite (request_sync_result self name args kwargs w res Henc Hsync Hres) in *.
  match goal with
  | |- context [walk (_from_nvim self) res ?w0] =>
      destruct (walk_from_nvim_unregistered self res w0 Hreg) as (c & w' & Hwalk & Hc)
  end.
  rewrite Hwalk in Hout. cbn [snd] in Hout.
  exists c, w'. split; [exact Hwalk|]. split; [exact Hc|exact Hout].
Qed.

(** ** More on [call], [Funcs] and the asynchronous flag *)

Lemma call_forwards (self : Nvim) (name : value) (args : list value)
    (kwargs : gmap string value) (w : world) :
  (forall k, is_Some (kwargs !! k) -> k = "async") ->
  call self name args kwargs w =
  request self (lit "vim_call_function") [name; VTuple args] kwargs w.
Proof.
  intros Hall. unfold call.
  erewrite bind_Return; [reflexivity|].
  apply call_keys_all_async.
  apply Forall_forall. intros k Hin.
  apply list_elem_of_fmap in Hin as ([k0 v0] & -> & Hin).
  apply elem_of_map_to_list in Hin. apply Hall. exists v0. exact Hin.
Qed.

(** X8. A vimscript function called through [funcs] with any number of
    arguments the encoding goes through (and no keyword but "async") goes
    out as exactly one
    'vim_call_function' message of exactly two arguments: the name of the
    function, and one list holding the arguments encoded at every depth. *)
Theorem Funcs_call_message (self : Nvim) (name : string) (args : list value)
    (kwargs : gmap string value) (w : world) :
  (forall k, is_Some (kwargs !! k) -> k = "async") ->
  forallb encodable args = true ->
  outbox (snd (Funcs_getattr self name args kwargs w)) =
  outbox w ++
  [(if async_option kwargs then Notification else Request)
     (lit "vim_call_function")
     [lit name; VList (map to_wire args)]].
Proof.
  intros Hall Henc. unfold Funcs_getattr.
  rewrite (call_forwards self (lit name) args kwargs w Hall).
  rewrite request_outbox
    by (cbn [forallb encodable]; rewrite encodable_lit, Henc; reflexivity).
  unfold request_msg. cbn [map]. rewrite to_wire_lit.
  destruct (async_option kwargs); reflexivity.
Qed.

Lemma async_option_singleton (a : value) :
  async_option {[ "async" := a ]} = truthy a.
Proof. unfold async_option. rewrite lookup_singleton_eq. reflexivity. Qed.

(** X9. [command], [eval] and [err_write] hand their [async] flag on to
    [request]: for an argument the encoding goes through, with [async=True]
    the call is one notification and returns None whatever the host does,
    with [async=False] (the default) it is one blocking request. *)
Theorem async_flag_handed_on (self : Nvim) (arg : value) (async : bool) (w : world) :
  encodable arg = true ->
  let msg name := (if async then Notification else Request)
                    (lit name) [to_wire arg] in
  (outbox (snd (command self arg (VBool async) w)) = outbox w ++ [msg "vim_command"] /\
   outbox (snd (eval self arg (VBool async) w)) = outbox w ++ [msg "vim_eval"] /\
   outbox (snd (err_write self arg (VBool async) w)) = outbox w ++ [msg "vim_err_write"]) /\
  (async = true ->
   fst (command self arg (VBool async) w) = Return VNone /\
   fst (eval self arg (VBool async) w) = Return VNone /\
   fst (err_write self arg (VBool async) w) = Return VNone).
Proof.
  intros Henc msg.
  assert (Hargs : forallb encodable [arg] = true)
    by (cbn [forallb]; rewrite Henc; reflexivity).
  split.
  - unfold command, eval, err_write, msg.
    rewrite !request_outbox by exact Hargs. unfold request_msg.
    rewrite async_option_singleton. cbn [truthy].
    destruct async; repeat split.
  - intros ->. unfold command, eval, err_write.
    rewrite !request_async_eq
      by (exact Hargs || (rewrite async_option_singleton; reflexivity)).
    repeat split.
Qed.

(** ** More on [quit], [foreach_rtp] and [chdir] *)

(** X10. [quit] never hands on what the quit command returned and never
    raises an [IOError]: when it returns, it returns None, and when it
    raises, the exception is the one the command raised and is not an
    instance of [IOError]. *)
Theorem quit_None_or_other_error (self : Nvim) (quit_command : value) (w : world) :
  (forall v w', quit self quit_command w = (Return v, w') -> v = VNone) /\
  (forall e w', quit self quit_command w = (Raise e, w') ->
     isinstance_exn e IOError = false /\
     command self quit_command (VBool false) w = (Raise e, w')).
Proof.
  unfold quit, try_except, bind.
  destruct (command self quit_command (VBool false) w) as [[v0|e0|] w0]; cbn [ret].
  - split; intros ? ? H; inversion H; reflexivity.
  - destruct (isinstance_exn e0 IOError) eqn:Hio; cbn [ret].
    + split; intros ? ? H; inversion H; reflexivity.
    + split; intros ? ? H; inversion H; subst. split; [exact Hio|reflexivity].
  - split; intros ? ? H; inversion H.
Qed.

(** An exception that leaves the loop of [foreach_rtp] was raised by the
    callback on one of the paths and is not an instance of [Exception]. *)
Lemma foreach_rtp_loop_raise (cb : callable) (paths : list value) (w w' : world)
    (e : exn) :
  for_each paths (fun path =>
    try_except
      (let! v := call_py cb [path] ∅ in
       if is_None v then ret Next else ret Break)
      Exception
      (fun _ => ret Break)) w = (Raise e, w') ->
  isinstance_exn e Exception = false /\
  exists path w0, path ∈ paths /\ cb [path] ∅ w0 = (Exc e, w').
Proof.
  revert w. induction paths as [|path rest IH]; intros w H; [discriminate|].
  cbn [for_each] in H. unfold bind at 1, try_except, bind at 1, call_py in H.
  destruct (cb [path] ∅ w) as [[v|e0] w1] eqn:Hcb.
  - destruct (is_None v); cbn [ret] in H; [|discriminate].
    destruct (IH w1 H) as (Hexc & p & w0 & Hin & Hp).
    split; [exact Hexc|]. exists p, w0. split; [right; exact Hin|exact Hp].
  - destruct (isinstance_exn e0 Exception) eqn:He; cbn [ret] in H; [discriminate|].
    inversion H; subst. split; [exact He|].
    exists path, w. split; [left|exact Hcb].
Qed.

(** X11. [foreach_rtp] never returns anything but None, whatever the
    callback does; and once the paths are fetched, an exception that leaves
    it was raised by the callback on one of the paths and is not an instance
    of [Exception]. *)
Theorem foreach_rtp_None_only (self : Nvim) (cb : callable) (w : world) :
  (forall v w', foreach_rtp self cb w = (Return v, w') -> v = VNone) /\
  (forall r w1 paths e w',
     request self (lit "vim_list_runtime_paths") [] ∅ w = (Return r, w1) ->
     py_iter r = Ok paths ->
     foreach_rtp self cb w = (Raise e, w') ->
     isinstance_exn e Exception = false /\
     exists path w0, path ∈ paths /\ cb [path] ∅ w0 = (Exc e, w')).
Proof.
  split.
  - intros v w' H. unfold foreach_rtp in H.
    apply bind_inv_Return in H as (r & w1 & _ & H).
    apply bind_inv_Return in H as (paths & w2 & _ & H).
    apply bind_inv_Return in H as (u & w3 & _ & H).
    apply ret_inv in H as [<- _]. reflexivity.
  - intros r w1 paths e w' Hreq Hiter H.
    unfold foreach_rtp in H.
    rewrite (bind_Return _ _ _ _ _ Hreq) in H.
    rewrite Hiter in H. cbn [lift] in H. unfold bind at 1 in H. cbn [ret] in H.
    unfold bind at 1 in H.
    match type of H with
    | match ?x with _ => _ end = _ => destruct x as [[u|e0|] w2] eqn:Hfor
    end; try discriminate.
    inversion H; subst e0 w2.
    eapply foreach_rtp_loop_raise. exact Hfor.
Qed.

(** X12. [chdir] changes the local directory first: when [os.chdir] raises,
    the exception goes to the caller and the host is told nothing; when it
    returns, the call is the request 'vim_change_directory' with the path. *)
Theorem chdir_local_first (self : Nvim) (os_chdir : callable) (dir_path : value)
    (w w1 : world) :
  (forall e, os_chdir [dir_path] ∅ w = (Exc e, w1) ->
     chdir self os_chdir dir_path w = (Raise e, w1)) /\
  (forall v, os_chdir [dir_path] ∅ w = (Ok v, w1) ->
     chdir self os_chdir dir_path w =
     request self (lit "vim_change_directory") [dir_path] ∅ w1).
Proof.
  split; intros x H; unfold chdir, bind at 1, call_py; rewrite H; reflexivity.
Qed.

(** ** More on the handlers of [run_loop] and [async_call] *)

(** X13. When the arguments of an inbound message hold, at any depth, a wire
    reference of a tag the registry does not have, the wrappers of [run_loop]
    raise [KeyError] with such a tag and the handler is not invoked: the
    outcome is the same for every handler. *)
Theorem run_loop_wrappers_undecodable (self : Nvim) (name args : value) (w : world) :
  registered self args = false ->
  is_text name = true ->
  exists c w',
    dict_get (VInt c) (types self) = None /\
    (forall request_cb,
       filter_request_cb self request_cb name args w =
       (Raise (mkExn KeyError [VInt c]), w')) /\
    (forall notification_cb,
       filter_notification_cb self notification_cb name args w =
       (Raise (mkExn KeyError [VInt c]), w')).
Proof.
  intros Hreg Hname.
  destruct (walk_from_nvim_unregistered self args w Hreg) as (c & w' & Hwalk & Hc).
  exists c, w'. split; [exact Hc|]. split.
  - intros request_cb. unfold filter_request_cb.
    erewrite bind_Raise by exact Hwalk. reflexivity.
  - intros notification_cb. unfold filter_notification_cb.
    erewrite bind_Return.
    2:{ apply _from_nvim_leaf. intros c0 s ->. discriminate. }
    erewrite bind_Raise by exact Hwalk. reflexivity.
Qed.

(** X14. The wrappers of [run_loop] swallow nothing: when the handler raises
    on the decoded name and arguments, the wrapper raises the same exception,
    for a request and for a notification alike. *)
Theorem run_loop_wrappers_propagate (self : Nvim) (cb : callable)
    (name args args' : value) (w w1 w2 : world) (e : exn) :
  is_text name = true ->
  walk (_from_nvim self) args w = (Return args', w1) ->
  cb [hooked self name; args'] ∅ w1 = (Exc e, w2) ->
  filter_request_cb self cb name args w = (Raise e, w2) /\
  filter_notification_cb self cb name args w = (Raise e, w2).
Proof.
  intros Hname Hwalk Hcb.
  assert (Hn : forall w0, _from_nvim self name w0 = (Return (hooked self name), w0)).
  { intros w0. apply _from_nvim_leaf. intros c s ->. discriminate. }
  split.
  - unfold filter_request_cb.
    erewrite bind_Return by exact Hwalk.
    erewrite bind_Return by apply Hn.
    erewrite bind_Raise by (unfold call_py; rewrite Hcb; reflexivity).
    reflexivity.
  - unfold filter_notification_cb.
    erewrite bind_Return by apply Hn.
    erewrite bind_Return by exact Hwalk.
    erewrite bind_Raise by (unfold call_py; rewrite Hcb; reflexivity).
    reflexivity.
Qed.

(** X15. The task of [async_call] neither swallows nor changes what [fn]
    raises, and it has no result of its own: it returns None exactly when
    [fn] returns, having sent nothing, and it raises [e] exactly when [fn]
    raises [e], having sent at most the one report. *)
Theorem async_call_handler_outcome (self : Nvim) (fn : callable)
    (args : list value) (kwargs : gmap string value) (call_point : string)
    (w : world) :
  let task := async_call_handler self fn args kwargs call_point w in
  fst task = match fst (fn args kwargs w) with
             | Ok _ => Return VNone
             | Exc e => Raise e
             end /\
  exists report,
    outbox (snd task) = outbox (snd (fn args kwargs w)) ++ report /\
    (length report <= 1)%nat /\
    (forall v, fst (fn args kwargs w) = Ok v -> report = []).
Proof.
  cbn zeta. unfold async_call_handler, try_except.
  unfold bind at 1 3, call_py.
  destruct (fn args kwargs w) as [[v|e] w1]; cbn [fst snd].
  - split; [reflexivity|]. exists []. rewrite app_nil_r.
    split; [reflexivity|]. split; [cbn; lia|reflexivity].
  - destruct (isinstance_exn e Exception).
    + erewrite !bind_Return by apply err_write_async. cbn [raise fst snd outbox].
      split; [reflexivity|]. eexists. split; [reflexivity|].
      split; [cbn; lia|discriminate].
    + split; [reflexivity|]. exists []. rewrite app_nil_r.
      split; [reflexivity|]. split; [cbn; lia|discriminate].
Qed.

(** ** [Current] and [next_message] *)

Lemma async_option_empty : async_option ∅ = false.
Proof. reflexivity. Qed.

(** A request without arguments the host answers with a wire reference of a
    registered tag returns a new proxy. *)
Lemma request_returns_proxy (self : Nvim) (name : value) (code : Z) (data : string)
    (cls : RemoteClass) (w : world) :
  host w (outbox w ++ [Request name []]) = Result (VExt code data) ->
  dict_get (VInt code) (types self) = Some cls ->
  request self name [] ∅ w =
    (Return (VRemote (mkRemote (next_oid w) cls (nv_oid self) (code, data))),
     mkWorld (S (next_oid w)) (outbox w ++ [Request name []])
       (host w) (error_wrapper w)).
Proof.
  intros Hhost Hreg.
  rewrite (request_sync_result self name [] ∅ w (VExt code data)
             eq_refl async_option_empty Hhost).
  cbn [walk]. rewrite (_from_nvim_registered self code data cls _ Hreg).
  reflexivity.
Qed.

(** X16. Setting [current.buffer], [current.window] or [current.tabpage] to
    a proxy whose tag [ExtType] takes (0 to 127) sends the proxy's wire
    reference in one blocking request; reading [current.buffer] (and likewise
    the window and the tabpage), when the host answers with a wire reference
    of a registered tag, gives a new proxy of the registered class with that
    tag and payload, bound to the instance. *)
Theorem Current_proxies (self : Nvim) (w : world) :
  (forall r,
     0 <= fst (code_data r) <= 127 ->
     let ref := VExt (fst (code_data r)) (snd (code_data r)) in
     outbox (snd (Current_set_buffer self (VRemote r) w)) =
       outbox w ++ [Request (lit "vim_set_current_buffer") [ref]] /\
     outbox (snd (Current_set_window self (VRemote r) w)) =
       outbox w ++ [Request (lit "vim_set_current_window") [ref]] /\
     outbox (snd (Current_set_tabpage self (VRemote r) w)) =
       outbox w ++ [Request (lit "vim_set_current_tabpage") [ref]]) /\
  (forall code data cls,
     dict_get (VInt code) (types self) = Some cls ->
     let proxy := VRemote (mkRemote (next_oid w) cls (nv_oid self) (code, data)) in
     let after name := mkWorld (S (next_oid w)) (outbox w ++ [Request (lit name) []])
                         (host w) (error_wrapper w) in
     (host w (outbox w ++ [Request (lit "vim_get_current_buffer") []])
        = Result (VExt code data) ->
      Current_buffer self w = (Return proxy, after "vim_get_current_buffer")) /\
     (host w (outbox w ++ [Request (lit "vim_get_current_window") []])
        = Result (VExt code data) ->
      Current_window self w = (Return proxy, after "vim_get_current_window")) /\
     (host w (outbox w ++ [Request (lit "vim_get_current_tabpage") []])
        = Result (VExt code data) ->
      Current_tabpage self w = (Return proxy, after "vim_get_current_tabpage"))).
Proof.
  split.
  - intros r Htag ref.
    assert (Henc : forallb encodable [VRemote r] = true).
    { cbn [forallb encodable].
      rewrite (proj2 (Z.leb_le 0 _)), (proj2 (Z.leb_le _ 127)) by lia.
      reflexivity. }
    unfold Current_set_buffer, Current_set_window, Current_set_tabpage.
    rewrite !request_outbox by exact Henc. repeat split.
  - intros code data cls Hreg proxy after.
    repeat split; intros Hhost;
      apply request_returns_proxy; assumption.
Qed.

(** X17. [next_message] gives None for a message that is false (None, an
    empty list), without decoding anything; what else it returns is the
    message of the session decoded at every depth. *)
Theorem next_message_decodes (self : Nvim) (session_next_message : M value)
    (w w1 : world) (msg : value) :
  session_next_message w = (Return msg, w1) ->
  (truthy msg = false ->
   next_message self session_next_message w = (Return VNone, w1)) /\
  (truthy msg = true ->
   next_message self session_next_message w = walk (_from_nvim self) msg w1 /\
   forall v w', next_message self session_next_message w = (Return v, w') ->
                decoded self msg v /\ has_ext v = false).
Proof.
  intros Hnext. unfold next_message.
  rewrite (bind_Return _ _ _ _ _ Hnext).
  split; intros Ht; rewrite Ht; [reflexivity|].
  split; [reflexivity|].
  intros v w' H. pose proof (walk_from_nvim_decoded self msg v w1 w' H) as Hdec.
  split; [exact Hdec|eapply decoded_no_ext; exact Hdec].
Qed.

(** ** More on [from_session] *)

(** X18. [from_session] installs the [error_wrapper] before it asks: when
    the host answers the introspection request itself with an error whose
    payload has an item at index 1, [from_session] raises [NvimError] with
    that item, after the one request, and makes no instance. *)
Theorem from_session_host_error (w : world) (e e1 : value) :
  host w (outbox w ++ [Request (VBytes "vim_get_api_info") []]) = HostError e ->
  py_getitem e (VInt 1) = Ok e1 ->
  from_session w =
    (Raise (mkExn NvimError [e1]),
     mkWorld (next_oid w) (outbox w ++ [Request (VBytes "vim_get_api_info") []])
       (host w) nvim_error_wrapper).
Proof.
  intros Hhost Hitem. unfold from_session.
  unfold bind at 1. cbn [set_error_wrapper].
  erewrite bind_Raise; [reflexivity|].
  unfold session_request. rewrite async_option_empty.
  unfold bind at 1. cbn [send outbox host error_wrapper next_oid].
  rewrite Hhost. unfold nvim_error_wrapper. rewrite Hitem. reflexivity.
Qed.

(** X19. When the metadata of the host cannot be indexed by 'types' (a dict
    without that key: [KeyError]), [from_session] raises what the indexing
    raises, after the one request, and makes no instance. *)
Theorem from_session_without_types (w : world) (r cid md : value) (e : exn) :
  let md' := if IS_PYTHON3 then deep_map (decode_if_bytes DecodeHook_default) md
             else md in
  host w (outbox w ++ [Request (VBytes "vim_get_api_info") []]) = Result r ->
  unpack2 r = Ok (cid, md) ->
  py_getitem md' (lit "types") = Exc e ->
  from_session w =
    (Raise e,
     mkWorld (next_oid w) (outbox w ++ [Request (VBytes "vim_get_api_info") []])
       (host w) nvim_error_wrapper).
Proof.
  intros md' Hhost Hunpack Htypes. unfold from_session.
  unfold bind at 1. cbn [set_error_wrapper].
  erewrite bind_Return.
  2:{ apply session_request_sync_result; [reflexivity|exact Hhost]. }
  rewrite Hunpack. unfold bind at 1. cbn [lift ret].
  erewrite bind_Return by apply from_session_metadata.
  fold md'. rewrite Htypes. reflexivity.
Qed.

(** What [from_session] returns on metadata that give three hashable
    identifiers. *)
Lemma from_session_returns (w : world) (r cid md tys tb tw tt b_id w_id t_id : value) :
  let md' := if IS_PYTHON3 then deep_map (decode_if_bytes DecodeHook_default) md
             else md in
  host w (outbox w ++ [Request (VBytes "vim_get_api_info") []]) = Result r ->
  unpack2 r = Ok (cid, md) ->
  py_getitem md' (lit "types") = Ok tys ->
  py_getitem tys (lit "Buffer") = Ok tb -> py_getitem tb (lit "id") = Ok b_id ->
  py_getitem tys (lit "Window") = Ok tw -> py_getitem tw (lit "id") = Ok w_id ->
  py_getitem tys (lit "Tabpage") = Ok tt -> py_getitem tt (lit "id") = Ok t_id ->
  hashable b_id = true -> hashable w_id = true -> hashable t_id = true ->
  from_session w =
    (Return (mkNvim (next_oid w) cid md'
               (dict_set t_id Tabpage (dict_set w_id Window [(b_id, Buffer)])) None),
     mkWorld (S (next_oid w))
       (outbox w ++ [Request (VBytes "vim_get_api_info") []])
       (host w) nvim_error_wrapper).
Proof.
  intros md' Hhost Hunpack Htys Hb Hbid Hw Hwid Ht Htid Hhb Hhw Hht.
  unfold from_session.
  unfold bind at 1. cbn [set_error_wrapper].
  erewrite bind_Return.
  2:{ apply session_request_sync_result; [reflexivity|exact Hhost]. }
  rewrite Hunpack. unfold bind at 1. cbn [lift ret].
  erewrite bind_Return by apply from_session_metadata.
  fold md'.
  rewrite Htys. unfold bind at 1. cbn [lift ret].
  rewrite Hb. unfold bind at 1. cbn [lift ret].
  rewrite Hbid. unfold bind at 1. cbn [lift ret].
  unfold bind at 1. cbn [lift ret].
  rewrite Hw. unfold bind at 1. cbn [lift ret].
  rewrite Hwid. unfold bind at 1. cbn [lift ret].
  unfold bind at 1. cbn [lift ret].
  rewrite Ht. unfold bind at 1. cbn [lift ret].
  rewrite Htid. unfold bind at 1. cbn [lift ret].
  cbn [dict_display]. rewrite Hhb, Hhw, Hht. reflexivity.
Qed.

(** X20. When the metadata give Buffer and Window the same identifier, the
    registry has one entry for it and the class written last wins: the
    instance [from_session] returns decodes a wire reference of that tag to a
    Window proxy, never to a Buffer one. *)
Theorem from_session_shared_identifier (w : world) (r cid md tys tb tw tt : value)
    (b t : Z) :
  let md' := if IS_PYTHON3 then deep_map (decode_if_bytes DecodeHook_default) md
             else md in
  host w (outbox w ++ [Request (VBytes "vim_get_api_info") []]) = Result r ->
  unpack2 r = Ok (cid, md) ->
  py_getitem md' (lit "types") = Ok tys ->
  py_getitem tys (lit "Buffer") = Ok tb -> py_getitem tb (lit "id") = Ok (VInt b) ->
  py_getitem tys (lit "Window") = Ok tw -> py_getitem tw (lit "id") = Ok (VInt b) ->
  py_getitem tys (lit "Tabpage") = Ok tt -> py_getitem tt (lit "id") = Ok (VInt t) ->
  b <> t ->
  exists nv w',
    from_session w = (Return nv, w') /\
    types nv = [(VInt b, Window); (VInt t, Tabpage)] /\
    forall data w1,
      _from_nvim nv (VExt b data) w1 =
      (Return (VRemote (mkRemote (next_oid w1) Window (nv_oid nv) (b, data))),
       mkWorld (S (next_oid w1)) (outbox w1) (host w1) (error_wrapper w1)).
Proof.
  intros md' Hhost Hunpack Htys Hb Hbid Hw Hwid Ht Htid Hne.
  eexists _, _. split.
  { eapply from_session_returns; try eassumption; reflexivity. }
  cbn [types dict_set py_eq]. rewrite Z.eqb_refl. cbn [dict_set py_eq].
  rewrite (proj2 (Z.eqb_neq b t) Hne).
  split; [reflexivity|].
  intros data w1. apply _from_nvim_registered.
  cbn [types dict_get py_eq]. rewrite Z.eqb_refl. reflexivity.
Qed.

Lemma lift_inv {A} (r : result A) (a : A) (w w' : world) :
  lift r w = (Return a, w') -> r = Ok a /\ w = w'.
Proof.
  destruct r; cbn; intros H; inversion H. split; reflexivity.
Qed.

Lemma length_dict_set {V} (k : value) (v : V) (d : dict V) :
  (length d <= length (dict_set k v d) <= S (length d))%nat.
Proof.
  induction d as [|[k' v'] d IH]; cbn; [lia|].
  destruct (py_eq k' k); cbn; lia.
Qed.

(** X21. Whenever [from_session] returns an instance, it has sent exactly
    one message, the blocking request 'vim_get_api_info' without arguments,
    which the host answered with a result; the session's [error_wrapper] is
    [lambda e: NvimError(e[1])]; the instance is a new object without
    decoding policy, and its registry has at least one and at most three
    entries. *)
Theorem from_session_returned (w w' : world) (nv : Nvim) :
  from_session w = (Return nv, w') ->
  w' = mkWorld (S (next_oid w))
         (outbox w ++ [Request (VBytes "vim_get_api_info") []])
         (host w) nvim_error_wrapper /\
  (exists r, host w (outbox w ++ [Request (VBytes "vim_get_api_info") []]) = Result r) /\
  nv_oid nv = next_oid w /\
  _decodehook nv = None /\
  (1 <= length (types nv) <= 3)%nat.
Proof.
  intros H. unfold from_session in H.
  apply bind_inv_Return in H as (u & w0 & Hset & H).
  cbn [set_error_wrapper] in Hset. inversion Hset; subst u w0. clear Hset.
  apply bind_inv_Return in H as (r & w1 & Hreq & H).
  unfold session_request in Hreq. rewrite async_option_empty in Hreq.
  unfold bind in Hreq. cbn [send outbox host error_wrapper next_oid] in Hreq.
  destruct (host w (outbox w ++ [Request (VBytes "vim_get_api_info") []]))
    as [res|e| |] eqn:Hhost; try discriminate.
  2:{ destruct (nvim_error_wrapper e); discriminate. }
  inversion Hreq; subst r w1. clear Hreq.
  apply bind_inv_Return in H as ([cid md] & w2 & Hun & H).
  apply lift_inv in Hun as [_ <-].
  apply bind_inv_Return in H as (md' & w3 & Hmd & H).
  rewrite from_session_metadata in Hmd. inversion Hmd; subst md' w3. clear Hmd.
  repeat match type of H with
         | bind (lift _) _ _ = _ =>
             let x := fresh "x" in
             let Hx := fresh "Hx" in
             apply bind_inv_Return in H as (x & ? & Hx & H);
             apply lift_inv in Hx as [Hx <-]
         end.
  unfold Nvim_init in H. unfold bind in H. cbn in H. inversion H; subst nv w'.
  cbn [nv_oid _decodehook types].
  split; [reflexivity|]. split; [eexists; reflexivity|].
  split; [reflexivity|]. split; [reflexivity|].
  match goal with
  | Hd : dict_display _ [] = Ok ?d |- _ =>
      cbn [dict_display] in Hd;
      repeat match type of Hd with
             | (if ?c then _ else _) = _ => destruct c; [|discriminate]
             end;
      inversion Hd; subst d
  end.
  match goal with
  | |- context [dict_set ?k Tabpage ?d] =>
      pose proof (length_dict_set k Tabpage d) as Hlen
  end.
  match goal with
  | |- context [py_eq ?a ?b] => destruct (py_eq a b)
  end; cbn [length] in *; lia.
Qed.

End Interpreter.

(** ** The theorems at sample inputs, on Python 3 *)

(** C1 fails at the tag 200, which the registry of [nvim_wide] holds for
    Buffer: [ExtType] takes no tag over 127, encoding the proxy raises
    [ValueError] and there is no wire reference to decode. *)
Lemma roundtrip_proxy_counterexample :
  code_data proxy_wide = (200, payload1) /\
  dict_get (VInt 200) (types nvim_wide) = Some Buffer /\
  _to_nvim true nvim_wide (VRemote proxy_wide) =
    Exc (mkExn ValueError [VStr "code must be 0~127"]) /\
  bind (lift (_to_nvim true nvim_wide (VRemote proxy_wide))) (_from_nvim nvim_wide)
    (world_sample true host_silent) =
    (Raise (mkExn ValueError [VStr "code must be 0~127"]),
     world_sample true host_silent).
Proof. repeat split. Qed.

(** C1 as amended, at tag 0 and payload [payload1], registered for Buffer. *)
Lemma roundtrip_proxy_equal_witness :
  code_data proxy_sample = (0, payload1) /\
  0 <= 0 <= 127 /\
  dict_get (VInt 0) (types nvim_sample) = Some Buffer /\
  _to_nvim true nvim_sample (VRemote proxy_sample) = Ok (VExt 0 payload1) /\
  exists r1 r2 w1 w2,
    bind (lift (_to_nvim true nvim_sample (VRemote proxy_sample)))
      (_from_nvim nvim_sample) (world_sample true host_silent) =
      (Return (VRemote r1), w1) /\
    _from_nvim nvim_sample (VExt 0 payload1) w1 = (Return (VRemote r2), w2) /\
    Remote_eq r1 proxy_sample = true /\
    Remote_eq r2 proxy_sample = true /\
    Remote_eq r1 r2 = true /\
    Remote_is r1 r2 = false.
Proof.
  split; [reflexivity|]. split; [lia|]. split; [reflexivity|].
  apply (roundtrip_proxy_equal true nvim_sample proxy_sample 0 payload1 Buffer
           (world_sample true host_silent)); [reflexivity|lia|reflexivity].
Defined.

(** The scenario of the spec: decoding (0, 01) twice gives equal proxies,
    and a proxy that differs from the one of (0, 02). *)
Lemma decode_scenario :
  exists r1 r2 r3 w1 w2 w3,
    _from_nvim nvim_sample (VExt 0 payload1) (world_sample true host_silent)
      = (Return (VRemote r1), w1) /\
    _from_nvim nvim_sample (VExt 0 payload1) w1 = (Return (VRemote r2), w2) /\
    _from_nvim nvim_sample (VExt 0 payload2) w2 = (Return (VRemote r3), w3) /\
    Remote_eq r1 r2 = true /\ Remote_eq r1 r3 = false.
Proof. eexists _, _, _, _, _, _. repeat split. Qed.

(** C2 fails at tag 5, which the registry of [nvim_sample] does not hold:
    decoding raises [KeyError] where the claim has the reference returned. *)
Lemma _from_nvim_unregistered_counterexample :
  dict_get (VInt 5) (types nvim_sample) = None /\
  _from_nvim nvim_sample (VExt 5 payload1) (world_sample true host_silent) =
    (Raise (mkExn KeyError [VInt 5]), world_sample true host_silent) /\
  _from_nvim nvim_sample (VExt 5 payload1) (world_sample true host_silent) <>
    (Return (VExt 5 payload1), world_sample true host_silent).
Proof.
  split; [reflexivity|].
  assert (E : _from_nvim nvim_sample (VExt 5 payload1) (world_sample true host_silent) =
              (Raise (mkExn KeyError [VInt 5]), world_sample true host_silent))
    by reflexivity.
  split; [exact E|]. rewrite E. discriminate.
Qed.

(** C2 as amended, at the same tag. *)
Lemma _from_nvim_unregistered_witness :
  dict_get (VInt 5) (types nvim_sample) = None /\
  _from_nvim nvim_sample (VExt 5 payload1) (world_sample true host_silent) =
    (Raise (mkExn KeyError [VInt 5]), world_sample true host_silent).
Proof.
  split; [reflexivity|].
  apply (_from_nvim_unregistered_raises nvim_sample 5 payload1
           (world_sample true host_silent)).
  reflexivity.
Defined.

(** C3 fails at the error payload [[0, b"boom"]]: the [NvimError] raised
    carries [b"boom"], its item 1, and not the payload. *)
Lemma request_host_error_counterexample :
  request true nvim_sample (VStr "vim_eval") [VStr "1/0"] ∅
    (world_sample true host_failing) =
    (Raise (mkExn NvimError [VBytes "boom"]),
     mkWorld 1 [Request (VStr "vim_eval") [VStr "1/0"]] host_failing
       (nvim_error_wrapper true)) /\
  mkExn NvimError [VBytes "boom"] <>
  mkExn NvimError [VList [VInt 0; VBytes "boom"]].
Proof. split; [reflexivity|discriminate]. Qed.

(** C3 as amended, at the same payload. *)
Lemma request_host_error_witness :
  error_wrapper (world_sample true host_failing) = nvim_error_wrapper true /\
  forallb encodable [VStr "1/0"] = true /\
  async_option ∅ = false /\
  host (world_sample true host_failing)
    (outbox (world_sample true host_failing) ++
     [Request (VStr "vim_eval") (map to_wire [VStr "1/0"])])
    = HostError (VList [VInt 0; VBytes "boom"]) /\
  py_getitem true (VList [VInt 0; VBytes "boom"]) (VInt 1) = Ok (VBytes "boom") /\
  request true nvim_sample (VStr "vim_eval") [VStr "1/0"] ∅
    (world_sample true host_failing) =
    (Raise (mkExn NvimError [VBytes "boom"]),
     mkWorld 1 [Request (VStr "vim_eval") [VStr "1/0"]] host_failing
       (nvim_error_wrapper true)).
Proof.
  repeat (split; [reflexivity|]).
  apply (request_host_error_raises_NvimError true nvim_sample (VStr "vim_eval")
           [VStr "1/0"] ∅ (world_sample true host_failing)
           (VList [VInt 0; VBytes "boom"]) (VBytes "boom")); reflexivity.
Defined.

(** C4 for a function that raises [ValueError], scheduled on an idle loop. *)
Lemma async_call_reports_and_reraises_witness :
  fn_sample [VInt 1] ∅ (world_sample true host_silent) =
    (Exc (mkExn ValueError [VInt 7]), world_sample true host_silent) /\
  isinstance_exn (mkExn ValueError [VInt 7]) Exception = true /\
  run_deferred
    (async_call true repr_sample format_exc_sample nvim_sample fn_sample
       [VInt 1] ∅ stack_sample (mkScheduler (world_sample true host_silent) [])) =
  Some (Raise (mkExn ValueError [VInt 7]),
        mkScheduler
          (mkWorld 1
             [Notification (VStr "vim_err_write")
                [VStr (async_error_msg repr_sample format_exc_sample
                         (mkExn ValueError [VInt 7])
                         "plugin.py:3 plugin.py:8 ")]]
             host_silent (nvim_error_wrapper true))
          []).
Proof.
  split; [reflexivity|]. split; [reflexivity|].
  destruct (async_call_reports_and_reraises true repr_sample format_exc_sample
              nvim_sample fn_sample [VInt 1] ∅ stack_sample
              (mkScheduler (world_sample true host_silent) []))
    as (task & call_point & Hsched & Hcp & Hrun).
  rewrite Hsched. unfold run_deferred. cbn [deferred loop_world app].
  destruct (Hrun (world_sample true host_silent) (world_sample true host_silent)
              (mkExn ValueError [VInt 7]) eq_refl eq_refl) as [Htask _].
  rewrite Htask, Hcp. reflexivity.
Defined.

(** C5 for a request whose arguments hold a proxy inside a list and inside
    a dict, and whose result holds wire references inside a list and a dict. *)
Lemma codec_applied_at_every_depth_witness :
  forallb encodable
    [VList [VRemote proxy_sample]; VDict [(VStr "b", VTuple [VRemote proxy_sample])]]
    = true /\
  (forall k, is_Some (kwargs_none !! k) -> k = "async") /\
  async_option kwargs_none = false /\
  host_refs [] = Result (VList [VExt 0 payload1;
                                VDict [(VBytes "w", VList [VExt 1 payload2])]]) /\
  decodable nvim_sample
    (VList [VExt 0 payload1; VDict [(VBytes "w", VList [VExt 1 payload2])]]) = true /\
  exists v w',
    request true nvim_sample (VStr "buffer_get_mark")
      [VList [VRemote proxy_sample]; VDict [(VStr "b", VTuple [VRemote proxy_sample])]]
      kwargs_none (world_sample true host_refs) = (Return v, w') /\
    outbox w' =
      [Request (VStr "buffer_get_mark")
         [VList [VExt 0 payload1]; VDict [(VStr "b", VList [VExt 0 payload1])]]] /\
    decoded nvim_sample
      (VList [VExt 0 payload1; VDict [(VBytes "w", VList [VExt 1 payload2])]]) v /\
    has_ext v = false.
Proof.
  assert (Hk : forall k, is_Some (kwargs_none !! k) -> k = "async").
  { intros k [v Hv]. unfold kwargs_none in Hv. rewrite lookup_empty in Hv.
    discriminate Hv. }
  split; [reflexivity|]. split; [exact Hk|]. split; [reflexivity|].
  split; [reflexivity|]. split; [reflexivity|].
  destruct (codec_applied_at_every_depth true nvim_sample) as (Hout & _).
  destruct (Hout (VStr "buffer_get_mark")
              [VList [VRemote proxy_sample];
               VDict [(VStr "b", VTuple [VRemote proxy_sample])]]
              kwargs_none (world_sample true host_refs)
              (VList [VExt 0 payload1; VDict [(VBytes "w", VList [VExt 1 payload2])]])
              ltac:(reflexivity) Hk ltac:(reflexivity) ltac:(reflexivity)
              ltac:(reflexivity))
    as (_ & v & w' & Hreq & Hbox & Hdec & Hext).
  exists v, w'. repeat split; assumption.
Defined.

(** C6 fails for an argument that is a proxy of tag 200: the encoding
    raises [ValueError] before the session is reached, and no notification is
    sent. *)
Lemma request_async_counterexample :
  async_option kwargs_async = true /\
  request true nvim_sample (VStr "noop") [VRemote proxy_wide] kwargs_async
    (world_sample true host_silent) =
    (Raise (mkExn ValueError [VStr "code must be 0~127"]),
     world_sample true host_silent) /\
  outbox (world_sample true host_silent) = [].
Proof. repeat split. Qed.

(** C6 as amended, on a host that never responds, with a proxy among the
    arguments. *)
Lemma request_async_is_notification_witness :
  forallb encodable [VList [VRemote proxy_sample]] = true /\
  async_option kwargs_async = true /\
  host (world_sample true host_silent) = host_silent /\
  request true nvim_sample (VStr "noop") [VList [VRemote proxy_sample]] kwargs_async
    (world_sample true host_silent) =
    (Return VNone,
     mkWorld 1 [Notification (VStr "noop") [VList [VExt 0 payload1]]] host_silent
       (nvim_error_wrapper true)).
Proof.
  split; [reflexivity|]. split; [reflexivity|]. split; [reflexivity|].
  apply (request_async_is_notification true nvim_sample (VStr "noop")
           [VList [VRemote proxy_sample]] kwargs_async
           (world_sample true host_silent)); reflexivity.
Defined.

(** The same request without the option, on the same host, never returns. *)
Lemma request_sync_silent_example :
  fst (request true nvim_sample (VStr "noop") [] ∅ (world_sample true host_silent))
  = Hang.
Proof. reflexivity. Qed.

(** C7 on a host that answers the introspection request with channel 3 and
    [metadata_sample]. *)
Lemma from_session_establishes_witness :
  host (world_fresh host_api_info)
    (outbox (world_fresh host_api_info) ++ [Request (VBytes "vim_get_api_info") []]) =
    Result (VList [VInt 3; metadata_sample]) /\
  unpack2 true (VList [VInt 3; metadata_sample]) = Ok (VInt 3, metadata_sample) /\
  from_session true (world_fresh host_api_info) =
    (Return (mkNvim 0 (VInt 3) metadata_text
               [(VInt 0, Buffer); (VInt 1, Window); (VInt 2, Tabpage)] None),
     mkWorld 1 [Request (VBytes "vim_get_api_info") []] host_api_info
       (nvim_error_wrapper true)).
Proof.
  split; [reflexivity|]. split; [reflexivity|].
  apply (proj1 (from_session_establishes true (world_fresh host_api_info)
                  (VList [VInt 3; metadata_sample]) (VInt 3) metadata_sample
                  (VDict [(VStr "Buffer", VDict [(VStr "id", VInt 0)]);
                          (VStr "Window", VDict [(VStr "id", VInt 1)]);
                          (VStr "Tabpage", VDict [(VStr "id", VInt 2)])])
                  (VDict [(VStr "id", VInt 0)])
                  (VDict [(VStr "id", VInt 1)])
                  (VDict [(VStr "id", VInt 2)])
                  0 1 2
                  eq_refl eq_refl eq_refl eq_refl eq_refl eq_refl eq_refl eq_refl eq_refl)).
Defined.

(** C8 with the keyword [timeout], and with the keyword [async] alone. *)
Lemma call_checks_keywords_witness :
  (is_Some (kwargs_timeout !! "timeout") /\ "timeout" <> "async" /\
   exists k', is_Some (kwargs_timeout !! k') /\ k' <> "async" /\
     call true nvim_sample (VStr "line") [VStr "."] kwargs_timeout
       (world_sample true host_silent) =
     (Raise (unexpected_keyword true k'), world_sample true host_silent)) /\
  ((forall k, is_Some (kwargs_async !! k) -> k = "async") /\
   call true nvim_sample (VStr "line") [VStr "."] kwargs_async
     (world_sample true host_silent) =
   request true nvim_sample (VStr "vim_call_function")
     [VStr "line"; VTuple [VStr "."]] kwargs_async (world_sample true host_silent)).
Proof.
  assert (Ht : is_Some (kwargs_timeout !! "timeout")) by (eexists; reflexivity).
  assert (Hne : "timeout" <> "async") by discriminate.
  assert (Ha : forall k, is_Some (kwargs_async !! k) -> k = "async").
  { intros k [v Hk]. unfold kwargs_async in Hk.
    apply lookup_singleton_Some in Hk as [Hk _]. symmetry. exact Hk. }
  split.
  - split; [exact Ht|]. split; [exact Hne|].
    exact (proj1 (call_checks_keywords true nvim_sample (VStr "line") [VStr "."]
                    kwargs_timeout (world_sample true host_silent))
             "timeout" Ht Hne).
  - split; [exact Ha|].
    exact (proj2 (call_checks_keywords true nvim_sample (VStr "line") [VStr "."]
                    kwargs_async (world_sample true host_silent)) Ha).
Defined.

(** C9 for a callback that raises on the second of three paths: the first
    two paths are visited, the third is not, and None comes back. *)
Lemma foreach_rtp_returns_None_witness :
  (forall args kwargs w0 e w',
     cb_sample args kwargs w0 = (Exc e, w') -> isinstance_exn e Exception = true) /\
  request true nvim_sample (VStr "vim_list_runtime_paths") [] kwargs_none
    (world_sample true host_paths) =
    (Return (VList [VBytes "/a"; VBytes "/b"; VBytes "/c"]),
     mkWorld 1 [Request (VStr "vim_list_runtime_paths") []] host_paths
       (nvim_error_wrapper true)) /\
  py_iter true (VList [VBytes "/a"; VBytes "/b"; VBytes "/c"]) =
    Ok [VBytes "/a"; VBytes "/b"; VBytes "/c"] /\
  foreach_rtp true nvim_sample cb_sample (world_sample true host_paths) =
    (Return VNone,
     mkWorld 1
       [Request (VStr "vim_list_runtime_paths") [];
        Notification (VBytes "seen") [VBytes "/a"];
        Notification (VBytes "seen") [VBytes "/b"]]
       host_paths (nvim_error_wrapper true)).
Proof.
  assert (Hcb : forall args kwargs w0 e w',
     cb_sample args kwargs w0 = (Exc e, w') -> isinstance_exn e Exception = true).
  { intros args kwargs w0 e w' H. unfold cb_sample in H.
    destruct args as [|a [|b rest]]; try discriminate;
      destruct a; try discriminate;
      destruct (String.eqb s "/b"); try discriminate;
      inversion H; reflexivity. }
  split; [exact Hcb|]. split; [reflexivity|]. split; [reflexivity|].
  destruct (foreach_rtp_returns_None true nvim_sample cb_sample
              (world_sample true host_paths)
              (mkWorld 1 [Request (VStr "vim_list_runtime_paths") []] host_paths
                 (nvim_error_wrapper true))
              (VList [VBytes "/a"; VBytes "/b"; VBytes "/c"])
              [VBytes "/a"; VBytes "/b"; VBytes "/c"]
              Hcb ltac:(reflexivity) ltac:(reflexivity)) as [Hrun _].
  rewrite Hrun. reflexivity.
Defined.

(** C10 on a host that closes the connection instead of answering. *)
Lemma quit_swallows_IOError_witness :
  command true nvim_sample (VStr "qa!") (VBool false) (world_sample true host_closed) =
    (Raise (mkExn IOError [VStr "EOF"]),
     mkWorld 1 [Request (VStr "vim_command") [VStr "qa!"]] host_closed
       (nvim_error_wrapper true)) /\
  isinstance_exn (mkExn IOError [VStr "EOF"]) IOError = true /\
  quit true nvim_sample (VStr "qa!") (world_sample true host_closed) =
    (Return VNone,
     mkWorld 1 [Request (VStr "vim_command") [VStr "qa!"]] host_closed
       (nvim_error_wrapper true)).
Proof.
  split; [reflexivity|]. split; [reflexivity|].
  apply (quit_swallows_IOError true nvim_sample (VStr "qa!")
           (world_sample true host_closed)
           (mkWorld 1 [Request (VStr "vim_command") [VStr "qa!"]] host_closed
              (nvim_error_wrapper true))
           (mkExn IOError [VStr "EOF"])); reflexivity.
Defined.

(** An error of the host is not an [IOError]: [quit] lets it through. *)
Lemma quit_host_error_example :
  fst (quit true nvim_sample (VStr "qa!") (world_sample true host_failing)) =
  Raise (mkExn NvimError [VBytes "boom"]).
Proof. reflexivity. Qed.

(** C4 fails for a function that raises [SystemExit]: the task raises it
    and nothing is reported, the outbox stays empty. *)
Lemma async_call_counterexample :
  fn_exit [] kwargs_none (world_sample true host_silent) =
    (Exc (mkExn SystemExit [VInt 0]), world_sample true host_silent) /\
  run_deferred
    (async_call true repr_sample format_exc_sample nvim_sample fn_exit
       [] kwargs_none stack_sample (mkScheduler (world_sample true host_silent) [])) =
  Some (Raise (mkExn SystemExit [VInt 0]),
        mkScheduler (mkWorld 1 [] host_silent (nvim_error_wrapper true)) []).
Proof. split; reflexivity. Qed.

(** C9 fails for a callback that raises [KeyboardInterrupt]: [foreach_rtp]
    does not return None, the exception reaches the caller. *)
Lemma foreach_rtp_counterexample :
  foreach_rtp true nvim_sample cb_interrupted (world_sample true host_paths) =
    (Raise (mkExn KeyboardInterrupt []),
     mkWorld 1 [Request (VStr "vim_list_runtime_paths") []] host_paths
       (nvim_error_wrapper true)) /\
  isinstance_exn (mkExn KeyboardInterrupt []) Exception = false.
Proof. split; reflexivity. Qed.

(** The loop of [run_loop] on one inbound request whose argument is a wire
    reference, with a handler that answers with what it is given: the
    handler sees a proxy, the response carries the wire reference again, and
    the end of the stream is a connection-closed error. *)
Lemma run_loop_example :
  run_loop true nvim_sample echo_sample echo_sample None
    [InRequest (VBytes "ping") [VExt 0 payload1]] (world_sample true host_silent) =
  (Raise (mkExn IOError [VStr "EOF"]),
   mkWorld 2 [Response (VList [VBytes "ping"; VList [VExt 0 payload1]])]
     host_silent (nvim_error_wrapper true)).
Proof. reflexivity. Qed.

(** ** The further theorems at sample inputs, on Python 3 *)

(** X1 for a proxy of tag 200 behind a string, with the asynchronous
    option. *)
Lemma request_invalid_tag_raises_witness :
  forallb encodable [VStr "x"] = true /\
  (fst (code_data proxy_wide) < 0 \/ 127 < fst (code_data proxy_wide)) /\
  request true nvim_sample (VStr "noop") [VStr "x"; VRemote proxy_wide; VInt 1]
    kwargs_async (world_sample true host_silent) =
    (Raise (mkExn ValueError [VStr "code must be 0~127"]),
     world_sample true host_silent).
Proof.
  split; [reflexivity|]. split; [right; reflexivity|].
  apply (request_invalid_tag_raises true nvim_sample (VStr "noop") [VStr "x"]
           [VInt 1] proxy_wide kwargs_async (world_sample true host_silent));
    [reflexivity|right; reflexivity].
Defined.

(** X2 at tag 1 and payload [payload2], registered for Window. *)
Lemma decode_then_encode_witness :
  dict_get (VInt 1) (types nvim_sample) = Some Window /\
  0 <= 1 <= 127 /\
  exists r w',
    _from_nvim nvim_sample (VExt 1 payload2) (world_sample true host_silent) =
      (Return (VRemote r), w') /\
    rcls r = Window /\ rsession r = nv_oid nvim_sample /\
    _to_nvim true nvim_sample (VRemote r) = Ok (VExt 1 payload2).
Proof.
  split; [reflexivity|]. split; [lia|].
  apply (decode_then_encode true nvim_sample 1 payload2 Window
           (world_sample true host_silent)); [reflexivity|lia].
Defined.

(** X3 at a wire reference of tag 0. *)
Lemma _from_nvim_returns_no_ext_witness :
  _from_nvim nvim_sample (VExt 0 payload1) (world_sample true host_silent) =
    (Return (VRemote (mkRemote 1 Buffer 0 (0, payload1))),
     mkWorld 2 [] host_silent (nvim_error_wrapper true)) /\
  (forall c d, VRemote (mkRemote 1 Buffer 0 (0, payload1)) <> VExt c d) /\
  (forall c d, VExt 0 payload1 = VExt c d ->
     exists r, VRemote (mkRemote 1 Buffer 0 (0, payload1)) = VRemote r /\
               code_data r = (c, d)).
Proof.
  split; [reflexivity|].
  apply (_from_nvim_returns_no_ext nvim_sample (VExt 0 payload1)
           (VRemote (mkRemote 1 Buffer 0 (0, payload1)))
           (world_sample true host_silent)
           (mkWorld 2 [] host_silent (nvim_error_wrapper true))).
  reflexivity.
Defined.

(** X4 at a list that holds a wire reference and a dict with one inside. *)
Lemma decode_encode_wire_value_witness :
  _decodehook nvim_sample = None /\
  wire_value (VList [VExt 0 payload1; VDict [(VBytes "w", VList [VExt 1 payload2])]])
    = true /\
  walk (_from_nvim nvim_sample)
    (VList [VExt 0 payload1; VDict [(VBytes "w", VList [VExt 1 payload2])]])
    (world_sample true host_silent) =
    (Return (VList [VRemote (mkRemote 1 Buffer 0 (0, payload1));
                    VDict [(VBytes "w",
                            VList [VRemote (mkRemote 2 Window 0 (1, payload2))])]]),
     mkWorld 3 [] host_silent (nvim_error_wrapper true)) /\
  walk (fun o => lift (_to_nvim true nvim_sample o))
    (VList [VRemote (mkRemote 1 Buffer 0 (0, payload1));
            VDict [(VBytes "w", VList [VRemote (mkRemote 2 Window 0 (1, payload2))])]])
    (world_sample true host_closed) =
  (Return (VList [VExt 0 payload1; VDict [(VBytes "w", VList [VExt 1 payload2])]]),
   world_sample true host_closed).
Proof.
  split; [reflexivity|]. split; [reflexivity|]. split; [reflexivity|].
  apply (decode_encode_wire_value true nvim_sample
           (VList [VExt 0 payload1; VDict [(VBytes "w", VList [VExt 1 payload2])]])
           (VList [VRemote (mkRemote 1 Buffer 0 (0, payload1));
                   VDict [(VBytes "w",
                           VList [VRemote (mkRemote 2 Window 0 (1, payload2))])]])
           (world_sample true host_silent)
           (mkWorld 3 [] host_silent (nvim_error_wrapper true))
           (world_sample true host_closed));
    reflexivity.
Defined.

(** X6 for a blocking request with a proxy inside a list, on a host that
    never answers. *)
Lemma request_sends_one_message_witness :
  forallb encodable [VList [VRemote proxy_sample]] = true /\
  (forall k, is_Some (kwargs_none !! k) -> k = "async") /\
  outbox (snd (request true nvim_sample (VStr "buffer_line_count")
                 [VList [VRemote proxy_sample]] kwargs_none
                 (world_sample true host_silent))) =
    [Request (VStr "buffer_line_count") [VList [VExt 0 payload1]]].
Proof.
  assert (Hk : forall k, is_Some (kwargs_none !! k) -> k = "async").
  { intros k [v Hv]. unfold kwargs_none in Hv. rewrite lookup_empty in Hv.
    discriminate Hv. }
  split; [reflexivity|]. split; [exact Hk|].
  exact (proj1 (request_sends_one_message true nvim_sample
                  (VStr "buffer_line_count") [VList [VRemote proxy_sample]]
                  kwargs_none (world_sample true host_silent)) eq_refl Hk).
Defined.

(** X7 on a host whose result holds a wire reference of tag 9 in a nested
    list, behind one of tag 0. *)
Lemma request_undecodable_result_witness :
  forallb encodable [] = true /\
  async_option kwargs_none = false /\
  host_unknown_ref [Request (VStr "vim_get_buffers") []] =
    Result (VList [VExt 0 payload1; VList [VExt 9 payload2]]) /\
  registered nvim_sample (VList [VExt 0 payload1; VList [VExt 9 payload2]]) = false /\
  exists c w',
    request true nvim_sample (VStr "vim_get_buffers") [] kwargs_none
      (world_sample true host_unknown_ref) =
      (Raise (mkExn KeyError [VInt c]), w') /\
    dict_get (VInt c) (types nvim_sample) = None /\
    outbox w' = [Request (VStr "vim_get_buffers") []].
Proof.
  split; [reflexivity|]. split; [reflexivity|]. split; [reflexivity|].
  split; [reflexivity|].
  apply (request_undecodable_result true nvim_sample (VStr "vim_get_buffers") []
           kwargs_none (world_sample true host_unknown_ref)
           (VList [VExt 0 payload1; VList [VExt 9 payload2]])); reflexivity.
Defined.

(** X8 for [funcs.line(".", async=True)]. *)
Lemma Funcs_call_message_witness :
  (forall k, is_Some (kwargs_async !! k) -> k = "async") /\
  forallb encodable [VStr "."] = true /\
  outbox (snd (Funcs_getattr true nvim_sample "line" [VStr "."] kwargs_async
                 (world_sample true host_silent))) =
  [Notification (VStr "vim_call_function") [VStr "line"; VList [VStr "."]]].
Proof.
  assert (Ha : forall k, is_Some (kwargs_async !! k) -> k = "async").
  { intros k [v Hk]. unfold kwargs_async in Hk.
    apply lookup_singleton_Some in Hk as [Hk _]. symmetry. exact Hk. }
  split; [exact Ha|]. split; [reflexivity|].
  exact (Funcs_call_message true nvim_sample "line" [VStr "."] kwargs_async
           (world_sample true host_silent) Ha eq_refl).
Defined.

(** X9 for [command("echo 1", async=True)] on a host that never responds. *)
Lemma async_flag_handed_on_witness :
  encodable (VStr "echo 1") = true /\
  command true nvim_sample (VStr "echo 1") (VBool true) (world_sample true host_silent) =
    (Return VNone,
     mkWorld 1 [Notification (VStr "vim_command") [VStr "echo 1"]] host_silent
       (nvim_error_wrapper true)) /\
  fst (command true nvim_sample (VStr "echo 1") (VBool true)
         (world_sample true host_silent)) = Return VNone.
Proof.
  split; [reflexivity|]. split; [reflexivity|].
  apply (proj2 (async_flag_handed_on true nvim_sample (VStr "echo 1") true
                  (world_sample true host_silent) eq_refl) eq_refl).
Defined.

(** X10 on a host that answers the quit command with a value, and on one
    that answers it with an error. *)
Lemma quit_None_or_other_error_witness :
  quit true nvim_sample (VStr "qa!") (world_sample true host_current_buffer) =
    (Return VNone,
     mkWorld 2 [Request (VStr "vim_command") [VStr "qa!"]] host_current_buffer
       (nvim_error_wrapper true)) /\
  quit true nvim_sample (VStr "qa!") (world_sample true host_failing) =
    (Raise (mkExn NvimError [VBytes "boom"]),
     mkWorld 1 [Request (VStr "vim_command") [VStr "qa!"]] host_failing
       (nvim_error_wrapper true)) /\
  isinstance_exn (mkExn NvimError [VBytes "boom"]) IOError = false.
Proof.
  split; [reflexivity|]. split; [reflexivity|].
  apply (proj2 (quit_None_or_other_error true nvim_sample (VStr "qa!")
                  (world_sample true host_failing))
           (mkExn NvimError [VBytes "boom"])
           (mkWorld 1 [Request (VStr "vim_command") [VStr "qa!"]] host_failing
              (nvim_error_wrapper true)) eq_refl).
Defined.

(** X11 for the callback interrupted from the keyboard. *)
Lemma foreach_rtp_None_only_witness :
  request true nvim_sample (VStr "vim_list_runtime_paths") [] kwargs_none
    (world_sample true host_paths) =
    (Return (VList [VBytes "/a"; VBytes "/b"; VBytes "/c"]),
     mkWorld 1 [Request (VStr "vim_list_runtime_paths") []] host_paths
       (nvim_error_wrapper true)) /\
  py_iter true (VList [VBytes "/a"; VBytes "/b"; VBytes "/c"]) =
    Ok [VBytes "/a"; VBytes "/b"; VBytes "/c"] /\
  foreach_rtp true nvim_sample cb_interrupted (world_sample true host_paths) =
    (Raise (mkExn KeyboardInterrupt []),
     mkWorld 1 [Request (VStr "vim_list_runtime_paths") []] host_paths
       (nvim_error_wrapper true)) /\
  isinstance_exn (mkExn KeyboardInterrupt []) Exception = false /\
  exists path w0,
    path ∈ [VBytes "/a"; VBytes "/b"; VBytes "/c"] /\
    cb_interrupted [path] ∅ w0 =
      (Exc (mkExn KeyboardInterrupt []),
       mkWorld 1 [Request (VStr "vim_list_runtime_paths") []] host_paths
         (nvim_error_wrapper true)).
Proof.
  split; [reflexivity|]. split; [reflexivity|]. split; [reflexivity|].
  refine (proj2 (foreach_rtp_None_only true nvim_sample cb_interrupted
                   (world_sample true host_paths))
            (VList [VBytes "/a"; VBytes "/b"; VBytes "/c"])
            (mkWorld 1 [Request (VStr "vim_list_runtime_paths") []] host_paths
               (nvim_error_wrapper true))
            [VBytes "/a"; VBytes "/b"; VBytes "/c"]
            (mkExn KeyboardInterrupt [])
            (mkWorld 1 [Request (VStr "vim_list_runtime_paths") []] host_paths
               (nvim_error_wrapper true)) _ _ _); reflexivity.
Defined.

(** X12 with an [os.chdir] that fails: nothing is sent. *)
Lemma chdir_local_first_witness :
  os_chdir_failing [VStr "/nowhere"] ∅ (world_sample true host_silent) =
    (Exc (mkExn (UserException "OSError" Exception) [VBytes "No such file or directory"]),
     world_sample true host_silent) /\
  chdir true nvim_sample os_chdir_failing (VStr "/nowhere")
    (world_sample true host_silent) =
    (Raise (mkExn (UserException "OSError" Exception)
              [VBytes "No such file or directory"]),
     world_sample true host_silent).
Proof.
  split; [reflexivity|].
  apply (proj1 (chdir_local_first true nvim_sample os_chdir_failing (VStr "/nowhere")
                  (world_sample true host_silent) (world_sample true host_silent))).
  reflexivity.
Defined.

(** X13 for an inbound message whose argument is a wire reference of tag 9. *)
Lemma run_loop_wrappers_undecodable_witness :
  registered nvim_sample (VList [VExt 9 payload1]) = false /\
  is_text (VBytes "event") = true /\
  exists c w',
    dict_get (VInt c) (types nvim_sample) = None /\
    (forall request_cb,
       filter_request_cb true nvim_sample request_cb (VBytes "event")
         (VList [VExt 9 payload1]) (world_sample true host_silent) =
       (Raise (mkExn KeyError [VInt c]), w')) /\
    (forall notification_cb,
       filter_notification_cb nvim_sample notification_cb (VBytes "event")
         (VList [VExt 9 payload1]) (world_sample true host_silent) =
       (Raise (mkExn KeyError [VInt c]), w')).
Proof.
  split; [reflexivity|]. split; [reflexivity|].
  apply (run_loop_wrappers_undecodable true nvim_sample (VBytes "event")
           (VList [VExt 9 payload1]) (world_sample true host_silent)); reflexivity.
Defined.

(** X14 for a handler that raises [ValueError]. *)
Lemma run_loop_wrappers_propagate_witness :
  is_text (VBytes "event") = true /\
  walk (_from_nvim nvim_sample) (VList [VExt 0 payload1])
    (world_sample true host_silent) =
    (Return (VList [VRemote (mkRemote 1 Buffer 0 (0, payload1))]),
     mkWorld 2 [] host_silent (nvim_error_wrapper true)) /\
  fn_sample [hooked nvim_sample (VBytes "event");
             VList [VRemote (mkRemote 1 Buffer 0 (0, payload1))]] ∅
    (mkWorld 2 [] host_silent (nvim_error_wrapper true)) =
    (Exc (mkExn ValueError [VInt 7]),
     mkWorld 2 [] host_silent (nvim_error_wrapper true)) /\
  filter_request_cb true nvim_sample fn_sample (VBytes "event") (VList [VExt 0 payload1])
    (world_sample true host_silent) =
    (Raise (mkExn ValueError [VInt 7]),
     mkWorld 2 [] host_silent (nvim_error_wrapper true)) /\
  filter_notification_cb nvim_sample fn_sample (VBytes "event") (VList [VExt 0 payload1])
    (world_sample true host_silent) =
    (Raise (mkExn ValueError [VInt 7]),
     mkWorld 2 [] host_silent (nvim_error_wrapper true)).
Proof.
  split; [reflexivity|]. split; [reflexivity|]. split; [reflexivity|].
  apply (run_loop_wrappers_propagate true nvim_sample fn_sample (VBytes "event")
           (VList [VExt 0 payload1])
           (VList [VRemote (mkRemote 1 Buffer 0 (0, payload1))])
           (world_sample true host_silent)
           (mkWorld 2 [] host_silent (nvim_error_wrapper true))
           (mkWorld 2 [] host_silent (nvim_error_wrapper true))
           (mkExn ValueError [VInt 7])); reflexivity.
Defined.

(** X16 for the proxy (0, [payload1]) set as the current buffer, and on a
    host that answers with the wire reference (0, [payload1]). *)
Lemma Current_proxies_witness :
  0 <= fst (code_data proxy_sample) <= 127 /\
  outbox (snd (Current_set_buffer true nvim_sample (VRemote proxy_sample)
                 (world_sample true host_silent))) =
    [Request (VStr "vim_set_current_buffer") [VExt 0 payload1]] /\
  dict_get (VInt 0) (types nvim_sample) = Some Buffer /\
  host_current_buffer [Request (VStr "vim_get_current_buffer") []] =
    Result (VExt 0 payload1) /\
  Current_buffer true nvim_sample (world_sample true host_current_buffer) =
    (Return (VRemote (mkRemote 1 Buffer 0 (0, payload1))),
     mkWorld 2 [Request (VStr "vim_get_current_buffer") []] host_current_buffer
       (nvim_error_wrapper true)).
Proof.
  assert (Htag : 0 <= fst (code_data proxy_sample) <= 127) by (cbn; lia).
  split; [exact Htag|].
  split.
  { exact (proj1 (proj1 (Current_proxies true nvim_sample
                           (world_sample true host_silent))
                    proxy_sample Htag)). }
  split; [reflexivity|]. split; [reflexivity|].
  apply (proj1 (proj2 (Current_proxies true nvim_sample
                         (world_sample true host_current_buffer))
                  0 payload1 Buffer ltac:(reflexivity))).
  reflexivity.
Defined.

(** X17 for a session whose next message is the empty list. *)
Lemma next_message_decodes_witness :
  ret (VList []) (world_sample true host_silent) =
    (Return (VList []), world_sample true host_silent) /\
  truthy (VList []) = false /\
  next_message nvim_sample (ret (VList [])) (world_sample true host_silent) =
    (Return VNone, world_sample true host_silent).
Proof.
  split; [reflexivity|]. split; [reflexivity|].
  apply (proj1 (next_message_decodes nvim_sample (ret (VList []))
                  (world_sample true host_silent) (world_sample true host_silent)
                  (VList []) eq_refl)).
  reflexivity.
Defined.

(** X18 on a host that answers the introspection request with an error. *)
Lemma from_session_host_error_witness :
  host_failing [Request (VBytes "vim_get_api_info") []] =
    HostError (VList [VInt 0; VBytes "boom"]) /\
  py_getitem true (VList [VInt 0; VBytes "boom"]) (VInt 1) = Ok (VBytes "boom") /\
  from_session true (world_fresh host_failing) =
    (Raise (mkExn NvimError [VBytes "boom"]),
     mkWorld 0 [Request (VBytes "vim_get_api_info") []] host_failing
       (nvim_error_wrapper true)).
Proof.
  split; [reflexivity|]. split; [reflexivity|].
  apply (from_session_host_error true (world_fresh host_failing)
           (VList [VInt 0; VBytes "boom"]) (VBytes "boom")); reflexivity.
Defined.

(** X19 on a host whose metadata are an empty dict. *)
Lemma from_session_without_types_witness :
  host_no_types [Request (VBytes "vim_get_api_info") []] =
    Result (VList [VInt 3; VDict []]) /\
  unpack2 true (VList [VInt 3; VDict []]) = Ok (VInt 3, VDict []) /\
  py_getitem true (VDict []) (VStr "types") = Exc (mkExn KeyError [VStr "types"]) /\
  from_session true (world_fresh host_no_types) =
    (Raise (mkExn KeyError [VStr "types"]),
     mkWorld 0 [Request (VBytes "vim_get_api_info") []] host_no_types
       (nvim_error_wrapper true)).
Proof.
  split; [reflexivity|]. split; [reflexivity|]. split; [reflexivity|].
  apply (from_session_without_types true (world_fresh host_no_types)
           (VList [VInt 3; VDict []]) (VInt 3) (VDict [])
           (mkExn KeyError [VStr "types"])); reflexivity.
Defined.

(** X20 on metadata that give Buffer and Window the identifier 0. *)
Lemma from_session_shared_identifier_witness :
  host_shared_id [Request (VBytes "vim_get_api_info") []] =
    Result (VList [VInt 3; metadata_shared_id]) /\
  exists nv w',
    from_session true (world_fresh host_shared_id) = (Return nv, w') /\
    types nv = [(VInt 0, Window); (VInt 2, Tabpage)] /\
    forall data w1,
      _from_nvim nv (VExt 0 data) w1 =
      (Return (VRemote (mkRemote (next_oid w1) Window (nv_oid nv) (0, data))),
       mkWorld (S (next_oid w1)) (outbox w1) (host w1) (error_wrapper w1)).
Proof.
  split; [reflexivity|].
  apply (from_session_shared_identifier true (world_fresh host_shared_id)
           (VList [VInt 3; metadata_shared_id]) (VInt 3) metadata_shared_id
           (VDict [(VStr "Buffer", VDict [(VStr "id", VInt 0)]);
                   (VStr "Window", VDict [(VStr "id", VInt 0)]);
                   (VStr "Tabpage", VDict [(VStr "id", VInt 2)])])
           (VDict [(VStr "id", VInt 0)])
           (VDict [(VStr "id", VInt 0)])
           (VDict [(VStr "id", VInt 2)])
           0 2); try reflexivity.
  discriminate.
Defined.

(** X21 on the host of [from_session_establishes_witness]. *)
Lemma from_session_returned_witness :
  from_session true (world_fresh host_api_info) =
    (Return (mkNvim 0 (VInt 3) metadata_text
               [(VInt 0, Buffer); (VInt 1, Window); (VInt 2, Tabpage)] None),
     mkWorld 1 [Request (VBytes "vim_get_api_info") []] host_api_info
       (nvim_error_wrapper true)) /\
  (exists r, host_api_info [Request (VBytes "vim_get_api_info") []] = Result r) /\
  (1 <= length [(VInt 0, Buffer); (VInt 1, Window); (VInt 2, Tabpage)] <= 3)%nat.
Proof.
  split; [reflexivity|].
  destruct (from_session_returned true (world_fresh host_api_info)
              (mkWorld 1 [Request (VBytes "vim_get_api_info") []] host_api_info
                 (nvim_error_wrapper true))
              (mkNvim 0 (VInt 3) metadata_text
                 [(VInt 0, Buffer); (VInt 1, Window); (VInt 2, Tabpage)] None)
              eq_refl) as (_ & Hr & _ & _ & Hlen).
  split; [exact Hr|exact Hlen].
Defined.
